(** * HttpBase: a request dispatcher over an HTTP transport

    Shallow embedding of [src/HttpBase.ts] (class [HttpBase]) and the
    properties of its contract.

    Modelling decisions, in one place:
    - Host callbacks ([showError], [handleServerError], [loading.show],
      [loading.hide]) are opaque procedures.  Calling one is recorded as an
      event of the run's trace and returns normally.
    - [throw], [try]/[catch] and [finally] are the operations of a small
      trace-and-exception monad [M].
    - [async]/[await] is sequenced: an awaited promise is the outcome it
      settles with.  The callbacks of [headers.map] that reach no [await] are
      over during the [map], in the order of the array; those that reach
      their [await] go on afterwards, taken in the order in which their
      getters were called.  [Promise.all] rejects with the first rejection
      in that order.
    - The transport ([Axios.request]) is a function from the request
      configuration to the way the returned promise settles.
    - The caller's options object is threaded explicitly: [httpBase] returns
      the object as the call leaves it. *)

From Stdlib Require Import String Ascii List ZArith Bool Lia.
Import ListNotations.
Local Open Scope string_scope.
Local Open Scope list_scope.

(** ** JavaScript values *)

(** An optional argument or property as the tests [x], [!x] and
    [x === undefined] see it: not supplied ([undefined]), supplied but falsy
    ([null], [false], [0], ['']), or supplied with a usable value. *)
Inductive slot (A : Type) : Type :=
| NotSupplied
| ExplicitlyEmpty
| Provided (a : A).
Arguments NotSupplied {A}.
Arguments ExplicitlyEmpty {A}.
Arguments Provided {A} a.

Definition truthy {A} (s : slot A) : bool :=
  match s with Provided _ => true | _ => false end.

Definition is_undefined {A} (s : slot A) : bool :=
  match s with NotSupplied => true | _ => false end.

(** A host function, known by its name only. *)
Inductive callback : Type := Fn (name : string).

(** Who supplied the callback that ran: the per-call options or the global
    configuration. *)
Inductive origin : Type := PerCall | Global.

(** [s.endsWith(suffix)]: [s] is [suffix], or what follows its first
    character ends with [suffix]. *)
Fixpoint endsWith (s suffix : string) : bool :=
  match s with
  | EmptyString => String.eqb suffix EmptyString
  | String _ rest => String.eqb s suffix || endsWith rest suffix
  end.

(** ** The data model *)

(** Modelled from the spec: [ILoading.ts] is not among the sources.  The
    indicator is the duck-typed object [{show, hide}], either method possibly
    missing. *)
Module ILoading.
Record t : Type := mk { show : slot callback; hide : slot callback }.
End ILoading.

(** Modelled from the spec: [ZyWebRes.ts] is not among the sources.  The
    envelope [{code, msg, data}] of a response body. *)
Module ZyWebRes.
Record t (T : Type) : Type := mk { code : string; msg : string; data : option T }.
Arguments mk {T}.
Arguments code {T}.
Arguments msg {T}.
Arguments data {T}.
End ZyWebRes.

(** Modelled from the spec: [ServerException.ts] is not among the sources.
    The structured exception; [handleError] reads [err.payload.msg]. *)
Module ServerException.
Record t (T : Type) : Type := mk { payload : ZyWebRes.t T }.
Arguments mk {T}.
Arguments payload {T}.
End ServerException.

(** The part of [err.response] that [handleError] reads.  A status is a
    safe integer, as every HTTP status code is: an integer that a JavaScript
    number holds exactly, so that arithmetic on [Z] is the arithmetic of the
    code. *)
Module AxiosResponse.
Definition MAX_SAFE_INTEGER : Z := 9007199254740991.
Definition safe (status : option Z) : bool :=
  match status with
  | Some s => (Z.abs s <=? MAX_SAFE_INTEGER)%Z
  | None => true
  end.
Record t : Type := mk { status : option Z; status_safe : safe status = true }.
End AxiosResponse.

(** Any other error object, by the properties [handleError] reads; [name]
    is the constructor's name.  A thrown primitive (a string, a number) has
    none of the three properties. *)
Module JsError.
Record t : Type := mk {
  name : string;
  response : option AxiosResponse.t;
  code : option string;
  message : option string }.
End JsError.

(** What a [catch] clause can receive. *)
Inductive thrown (T : Type) : Type :=
| ExnServer (e : ServerException.t T)   (* [err instanceof ServerException] *)
| ExnError (e : JsError.t)              (* any other object or primitive *)
| ExnNullish.                           (* [null] or [undefined] *)
Arguments ExnServer {T}.
Arguments ExnError {T}.
Arguments ExnNullish {T}.

(** The [TypeError] of reading a property of [null] or [undefined]. *)
Definition TypeError (what : string) : JsError.t :=
  JsError.mk "TypeError" None None (Some what).

(** What calling a header provider's [get] does. *)
Inductive getter (T : Type) : Type :=
| ReturnsString (s : string)
| Throws (e : thrown T)
| PromiseResolves (s : string)
| PromiseRejects (e : thrown T).
Arguments ReturnsString {T}.
Arguments Throws {T}.
Arguments PromiseResolves {T}.
Arguments PromiseRejects {T}.

(** [token.get]: a string, or a function to call. *)
Inductive token_get (T : Type) : Type :=
| Literal (s : string)
| Function (g : getter T).
Arguments Literal {T}.
Arguments Function {T}.

(** Modelled from the spec: [HttpGlobalConfig.ts] is not among the sources.
    A header provider is a key, a value or value-producing function, and a
    flag restricting it to write requests. *)
Module HeaderType.
Record t (T : Type) : Type := mk { key : string; get : token_get T; postOnly : bool }.
Arguments mk {T}.
Arguments key {T}.
Arguments get {T}.
Arguments postOnly {T}.
End HeaderType.

(** Modelled from the spec: [HttpGlobalConfig.ts] is not among the sources.
    The port is kept as the text the template literal interpolates; an
    empty text is falsy, as is a missing port. *)
Module IHttpGlobalConfig.
Record t (T : Type) : Type := mk {
  serverBase : string;
  serverPort : option string;
  timeout : option Z;
  showError : option callback;
  loading : slot ILoading.t;
  headers : option (list (HeaderType.t T));
  handleServerError : option callback }.
Arguments mk {T}.
Arguments serverBase {T}.
Arguments serverPort {T}.
Arguments timeout {T}.
Arguments showError {T}.
Arguments loading {T}.
Arguments headers {T}.
Arguments handleServerError {T}.
End IHttpGlobalConfig.

(** Modelled from the spec: [HttpOptions.ts] is not among the sources. *)
Module IHttpOptions.
Record t (P : Type) : Type := mk {
  timeout : option Z;
  params : option P;
  showError : slot callback;
  loading : slot ILoading.t;
  skipServerErrorHandler : option bool }.
Arguments mk {P}.
Arguments timeout {P}.
Arguments params {P}.
Arguments showError {P}.
Arguments loading {P}.
Arguments skipServerErrorHandler {P}.

(** The default argument [{}] of [get] and [post]. *)
Definition empty {P} : t P := mk None None NotSupplied NotSupplied None.
End IHttpOptions.

(** The request configuration handed to the transport. *)
Module AxiosRequestConfig.
Record t (R P : Type) : Type := mk {
  method : string;
  url : string;
  timeout : Z;
  withCredentials : bool;
  headers : list (string * string);
  params : option P;
  data : option R }.
Arguments mk {R P}.
Arguments method {R P}.
Arguments url {R P}.
Arguments timeout {R P}.
Arguments withCredentials {R P}.
Arguments headers {R P}.
Arguments params {R P}.
Arguments data {R P}.
End AxiosRequestConfig.

(** How the promise of [Axios.request] settles: with a response whose body
    is an envelope or is [null]/[undefined], or with a rejection. *)
Inductive AxiosResult (T : Type) : Type :=
| Resolves (body : option (ZyWebRes.t T))
| Rejects (err : thrown T).
Arguments Resolves {T}.
Arguments Rejects {T}.

(** ** Observable effects *)

Inductive event (T R P : Type) : Type :=
| AssignSkip (v : bool)
| ShowError (o : origin) (f : callback) (m : string)
| LoadingShow (o : origin) (f : callback)
| LoadingHide (o : origin) (f : callback)
| HandleServerError (f : callback) (e : ServerException.t T)
| Request (c : AxiosRequestConfig.t R P).
Arguments AssignSkip {T R P}.
Arguments ShowError {T R P}.
Arguments LoadingShow {T R P}.
Arguments LoadingHide {T R P}.
Arguments HandleServerError {T R P}.
Arguments Request {T R P}.

(** How a computation ends. *)
Inductive outcome (T A : Type) : Type :=
| Returned (a : A)
| Threw (e : thrown T).
Arguments Returned {T A}.
Arguments Threw {T A}.

(** ** Sample configurations, options and transports

    Payloads, bodies and query parameters are JSON texts here. *)

Module Sample.

Definition toast : callback := Fn "toast".
Definition onServerError : callback := Fn "onServerError".
Definition spinner : ILoading.t :=
  ILoading.mk (Provided (Fn "spinner.show")) (Provided (Fn "spinner.hide")).

(** Base [http://api.test], no port, every global callback configured. *)
Definition config : IHttpGlobalConfig.t string :=
  IHttpGlobalConfig.mk "http://api.test" None None (Some toast) (Provided spinner)
    None (Some onServerError).

(** The same with port 8080. *)
Definition config_port : IHttpGlobalConfig.t string :=
  IHttpGlobalConfig.mk "http://api.test" (Some "8080") None (Some toast)
    (Provided spinner) None (Some onServerError).

(** No global indicator. *)
Definition config_bare : IHttpGlobalConfig.t string :=
  IHttpGlobalConfig.mk "http://api.test" None None None NotSupplied None None.

(** [headers: [{ key: 'Authorization', get: () => Promise.reject() }]] *)
Definition config_token_rejects : IHttpGlobalConfig.t string :=
  IHttpGlobalConfig.mk "http://api.test" None None (Some toast) (Provided spinner)
    (Some [HeaderType.mk "Authorization" (Function (PromiseRejects ExnNullish)) false])
    (Some onServerError).

(** [{ loading: { show } }]: a per-call indicator without [hide]. *)
Definition options_show_only : IHttpOptions.t string :=
  IHttpOptions.mk None None NotSupplied
    (Provided (ILoading.mk (Provided (Fn "bar.show")) NotSupplied)) None.

(** [{ loading: { hide } }]: a per-call indicator without [show]. *)
Definition options_hide_only : IHttpOptions.t string :=
  IHttpOptions.mk None None NotSupplied
    (Provided (ILoading.mk NotSupplied (Provided (Fn "bar.hide")))) None.

Definition envelope_ok : ZyWebRes.t string := ZyWebRes.mk "OK" "done" (Some "[]").
Definition envelope_denied : ZyWebRes.t string :=
  ZyWebRes.mk "DENIED" "not allowed" None.

Definition error_503 : JsError.t :=
  JsError.mk "AxiosError" (Some (AxiosResponse.mk (Some 503%Z) eq_refl)) None
    (Some "Request failed with status code 503").
Definition error_404 : JsError.t :=
  JsError.mk "AxiosError" (Some (AxiosResponse.mk (Some 404%Z) eq_refl)) None
    (Some "Request failed with status code 404").
Definition error_timeout : JsError.t :=
  JsError.mk "AxiosError" None (Some "ECONNABORTED") (Some "timeout of 5000ms exceeded").
Definition error_network : JsError.t :=
  JsError.mk "AxiosError" None None (Some "Network Error").
Definition error_other : JsError.t :=
  JsError.mk "Error" None None (Some "socket hang up").

Definition answers (body : ZyWebRes.t string)
  (c : AxiosRequestConfig.t string string) : AxiosResult string :=
  Resolves (Some body).

Definition fails (err : JsError.t)
  (c : AxiosRequestConfig.t string string) : AxiosResult string :=
  Rejects (ExnError err).

(** Two providers: a token fetched asynchronously for every request, and a
    literal sent with write requests only. *)
Definition config_tokens : IHttpGlobalConfig.t string :=
  IHttpGlobalConfig.mk "http://api.test" None (Some 3000%Z) (Some toast)
    (Provided spinner)
    (Some [HeaderType.mk "Authorization" (Function (PromiseResolves "Bearer abc")) false;
           HeaderType.mk "X-CSRF" (Literal "s3cr3t") true])
    (Some onServerError).

(** [{ showError: null }]: the display is silenced for the call. *)
Definition options_silent : IHttpOptions.t string :=
  IHttpOptions.mk None None ExplicitlyEmpty NotSupplied None.

(** [{ loading: null }] *)
Definition options_no_indicator : IHttpOptions.t string :=
  IHttpOptions.mk None None NotSupplied ExplicitlyEmpty None.

(** A redirect status on an error that also carries the timeout marker. *)
Definition error_302 : JsError.t :=
  JsError.mk "AxiosError" (Some (AxiosResponse.mk (Some 302%Z) eq_refl)) (Some "ECONNABORTED")
    (Some "Network Error").

(** A provider whose promise is rejected with a [ServerException]. *)
Definition config_token_denied : IHttpGlobalConfig.t string :=
  IHttpGlobalConfig.mk "http://api.test" None None (Some toast) (Provided spinner)
    (Some [HeaderType.mk "Authorization"
             (Function (PromiseRejects (ExnServer (ServerException.mk envelope_denied))))
             false])
    (Some onServerError).

(** A response with no body. *)
Definition answers_nothing
  (c : AxiosRequestConfig.t string string) : AxiosResult string :=
  Resolves None.

End Sample.

(** ** The dispatcher *)

Section HttpBase.
Variables T R P : Type.

Abbreviation ev := (event T R P).

(** A computation: the events it performed, in order, and how it ended. *)
Definition M (A : Type) : Type := (list ev * outcome T A)%type.

Definition ret {A} (a : A) : M A := ([], Returned a).

Definition throw {A} (e : thrown T) : M A := ([], Threw e).

Definition emit (e : ev) : M unit := ([e], Returned tt).

Definition bind {A B} (m : M A) (k : A -> M B) : M B :=
  match m with
  | (tr, Returned a) => let (tr', o) := k a in (tr ++ tr', o)
  | (tr, Threw e) => (tr, Threw e)
  end.

(** [try { m } catch (e) { h e }] *)
Definition try_catch {A} (m : M A) (h : thrown T -> M A) : M A :=
  match m with
  | (tr, Returned a) => (tr, Returned a)
  | (tr, Threw e) => let (tr', o) := h e in (tr ++ tr', o)
  end.

(** [try { m } finally { f }]: [f] runs either way, and an exception of
    [f] replaces the outcome of [m]. *)
Definition try_finally {A} (m : M A) (f : M unit) : M A :=
  let (tr, o) := m in
  match f with
  | (tr', Returned _) => (tr ++ tr', o)
  | (tr', Threw e) => (tr ++ tr', Threw e)
  end.

Definition trace {A} (m : M A) : list ev := fst m.
Definition result {A} (m : M A) : outcome T A := snd m.

Notation "x <- m ;; k" := (bind m (fun x => k))
  (at level 61, m at next level, right associativity).
Notation "m ;; k" := (bind m (fun _ => k))
  (at level 61, right associativity).

(** [this.config] and the transport. *)
Variable config : IHttpGlobalConfig.t T.
Variable Axios_request : AxiosRequestConfig.t R P -> AxiosResult T.

(** The constructor's [this.serverFullPath]. *)
Definition serverFullPath : string :=
  match IHttpGlobalConfig.serverPort config with
  | Some port =>
      if String.eqb port EmptyString
      then IHttpGlobalConfig.serverBase config
      else (IHttpGlobalConfig.serverBase config ++ ":" ++ port ++ "/")%string
  | None => IHttpGlobalConfig.serverBase config
  end.

Definition showError (msg : string) (showError : slot callback) : M unit :=
  match showError with
  | Provided f => emit (ShowError PerCall f msg)
  | _ =>
      if is_undefined showError then
        match IHttpGlobalConfig.showError config with
        | Some g => emit (ShowError Global g msg)
        | None => ret tt
        end
      else ret tt
  end.

(** [loading && loading.m] for a method [m] of the indicator. *)
Definition and_member (m : ILoading.t -> slot callback) (loading : slot ILoading.t)
  : slot callback :=
  match loading with
  | Provided l => m l
  | NotSupplied => NotSupplied
  | ExplicitlyEmpty => ExplicitlyEmpty
  end.

(** [loading && loading.m === undefined] *)
Definition and_member_undefined (m : ILoading.t -> slot callback) (loading : slot ILoading.t)
  : bool :=
  match loading with
  | Provided l => is_undefined (m l)
  | _ => false
  end.

Definition showLoading (loading : slot ILoading.t) : M unit :=
  match and_member ILoading.show loading with
  | Provided f => emit (LoadingShow PerCall f)
  | _ =>
      if is_undefined loading || and_member_undefined ILoading.show loading then
        match and_member ILoading.show (IHttpGlobalConfig.loading config) with
        | Provided g => emit (LoadingShow Global g)
        | _ => ret tt
        end
      else ret tt
  end.

Definition hideLoading (loading : slot ILoading.t) : M unit :=
  match and_member ILoading.hide loading with
  | Provided f => emit (LoadingHide PerCall f)
  | _ =>
      if is_undefined loading || and_member_undefined ILoading.show loading then
        match and_member ILoading.hide (IHttpGlobalConfig.loading config) with
        | Provided g => emit (LoadingHide Global g)
        | _ => ret tt
        end
      else ret tt
  end.

(** [parseInt(status / 100 + '', 10)] for a safe integer: the quotient
    truncated towards zero.  (For a safe integer [status / 100] is below
    [1e21], so its text is printed without an exponent and starts with that
    quotient.) *)
Definition status_family (status : Z) : Z := Z.quot status 100.

(** [x === lit] for a property that is a string or missing. *)
Definition is_string (x : option string) (lit : string) : bool :=
  match x with Some s => String.eqb s lit | None => false end.

(** The [code] and [msg] that [handleError] settles on for an error that is
    not a [ServerException]. *)
Definition classify (err : JsError.t) : string * string :=
  let code := "UNKNOWN_ERROR" in
  let msg := "未知错误" in
  let without_status :=
    if is_string (JsError.code err) "ECONNABORTED" then
      (match JsError.code err with Some c => c | None => code end, "网络超时")
    else if is_string (JsError.message err) "Network Error" then
      ("NETWORK_ERROR", "无网络, 请检查您的网络连接")
    else (code, msg) in
  match JsError.response err with
  | Some response =>
      match AxiosResponse.status response with
      | Some status =>
          if Z.eqb (status_family status) 5 then
            ("SERVER_INTERNAL_ERROR", "服务器内部错误")
          else if Z.eqb (status_family status) 4 then
            ("URL_NOT_FOUND", "URL找不到")
          else (code, msg)
      | None => without_status
      end
  | None => without_status
  end.

(** [new ServerException({code, msg})] *)
Definition rejection (code msg : string) : thrown T :=
  ExnServer (ServerException.mk (ZyWebRes.mk code msg None)).

Definition truthy_flag (b : option bool) : bool :=
  match b with Some true => true | _ => false end.

Definition handleError (err : thrown T) (showErr : slot callback)
  (skipServerErrorHandler : option bool) : M unit :=
  match err with
  | ExnServer e =>
      showError (ZyWebRes.msg (ServerException.payload e)) showErr ;;
      (if negb (truthy_flag skipServerErrorHandler) then
         match IHttpGlobalConfig.handleServerError config with
         | Some h => emit (HandleServerError h e)
         | None => ret tt
         end
       else ret tt) ;;
      throw err
  | ExnNullish =>
      throw (ExnError (TypeError "Cannot read properties of undefined (reading 'response')"))
  | ExnError e =>
      let (code, msg) := classify e in
      showError msg showErr ;;
      throw (rejection code msg)
  end.

(** [getToken(getMethod)], awaited.  A getter that throws does so before
    the promise is made; the [try] around the call catches both. *)
Definition getToken (getMethod : getter T) : M string :=
  match getMethod with
  | ReturnsString s => ret s
  | PromiseResolves s => ret s
  | Throws e => throw e
  | PromiseRejects e => throw e
  end.

(** [headers[key] = value] on an object: an existing key keeps its place. *)
Fixpoint set_header (key value : string) (headers : list (string * string))
  : list (string * string) :=
  match headers with
  | [] => [(key, value)]
  | (k, v) :: rest =>
      if String.eqb k key then (key, value) :: rest
      else (k, v) :: set_header key value rest
  end.

(** [options.skipServerErrorHandler = options.skipServerErrorHandler || false] *)
Definition normalize_skip (options : IHttpOptions.t P) : IHttpOptions.t P :=
  IHttpOptions.mk
    (IHttpOptions.timeout options)
    (IHttpOptions.params options)
    (IHttpOptions.showError options)
    (IHttpOptions.loading options)
    (Some (truthy_flag (IHttpOptions.skipServerErrorHandler options) || false)).

(** [(token.postOnly && method === 'post') || !token.postOnly] *)
Definition applies (method : string) (token : HeaderType.t T) : bool :=
  (HeaderType.postOnly token && String.eqb method "post")
  || negb (HeaderType.postOnly token).

(** The body of the [async token => ...] callback of [headers.map]. *)
Definition resolve_header (method : string) (options : IHttpOptions.t P)
  (token : HeaderType.t T) (headers : list (string * string))
  : M (list (string * string)) :=
  if applies method token then
    try_catch
      (tokenStr <- match HeaderType.get token with
                   | Function g => getToken g
                   | Literal s => ret s
                   end ;;
       ret (set_header (HeaderType.key token) tokenStr headers))
      (fun e =>
         handleError e (IHttpOptions.showError options)
           (IHttpOptions.skipServerErrorHandler options) ;;
         ret headers)
  else ret headers.

(** Callbacks of [headers.map] taken one after the other: every one runs,
    whatever the others do; the first rejection, if any, is the one that
    [Promise.all] rejects with. *)
Fixpoint settle_in_order (method : string) (options : IHttpOptions.t P)
  (tokens : list (HeaderType.t T)) (headers : list (string * string))
  : M (list (string * string)) :=
  match tokens with
  | [] => ret headers
  | token :: rest =>
      match resolve_header method options token headers with
      | (tr, Returned headers') =>
          let (tr', o) := settle_in_order method options rest headers' in
          (tr ++ tr', o)
      | (tr, Threw e) =>
          (tr ++ trace (settle_in_order method options rest headers), Threw e)
      end
  end.

(** Whether the callback reaches its [await]: it does when [get] is a
    function that returns, a string or a promise.  With a literal, or a
    getter that throws, the callback is over before [map] goes on to the
    next provider. *)
Definition awaited (token : HeaderType.t T) : bool :=
  match HeaderType.get token with
  | Function (ReturnsString _) => true
  | Function (PromiseResolves _) => true
  | Function (PromiseRejects _) => true
  | _ => false
  end.

(** The order in which the callbacks get through their [try] statement:
    during [map], in the order of the array, those that reach no [await];
    after [map], those that do.  The latter are taken in the order of the
    array, which is the order in which their getters were called. *)
Definition schedule (tokens : list (HeaderType.t T)) : list (HeaderType.t T) :=
  filter (fun token => negb (awaited token)) tokens ++ filter awaited tokens.

(** [await Promise.all(headers.map(...))] *)
Definition resolve_headers (method : string) (options : IHttpOptions.t P)
  (tokens : list (HeaderType.t T)) (headers : list (string * string))
  : M (list (string * string)) :=
  settle_in_order method options (schedule tokens) headers.

(** The request configuration before the header providers run. *)
Definition request_url (url : string) : string :=
  (serverFullPath ++ url ++ (if endsWith url "/" then EmptyString else "/"))%string.

Definition or_timeout (t : option Z) (otherwise : Z) : Z :=
  match t with
  | Some z => if Z.eqb z 0 then otherwise else z
  | None => otherwise
  end.

Definition httpOptions (method url : string) (data : option R)
  (options : IHttpOptions.t P) : AxiosRequestConfig.t R P :=
  AxiosRequestConfig.mk
    method
    (request_url url)
    (or_timeout (IHttpOptions.timeout options)
       (or_timeout (IHttpGlobalConfig.timeout config) 5000))
    true
    [("Content-Type", "application/json")]
    (IHttpOptions.params options)
    (if String.eqb method "post" then data else None).

Definition with_headers (c : AxiosRequestConfig.t R P) (headers : list (string * string))
  : AxiosRequestConfig.t R P :=
  AxiosRequestConfig.mk
    (AxiosRequestConfig.method c) (AxiosRequestConfig.url c)
    (AxiosRequestConfig.timeout c) (AxiosRequestConfig.withCredentials c)
    headers
    (AxiosRequestConfig.params c) (AxiosRequestConfig.data c).

(** What follows [await Axios.request(httpOptions)] in the [try] block: the
    rejection is thrown, a body that is [null] or [undefined] cannot be
    destructured, an envelope is checked against ['OK']. *)
Definition unwrap (res : AxiosResult T) : M (option T) :=
  match res with
  | Rejects err => throw err
  | Resolves None =>
      throw (ExnError (TypeError "Cannot destructure property 'code' of 'payload'"))
  | Resolves (Some payload) =>
      if negb (String.eqb (ZyWebRes.code payload) "OK") then
        throw (ExnServer (ServerException.mk payload))
      else ret (ZyWebRes.data payload)
  end.

(** The [try]/[catch]/[finally] statement that ends [httpBase]. *)
Definition dispatch (c : AxiosRequestConfig.t R P) (options : IHttpOptions.t P)
  : M (option T) :=
  try_finally
    (try_catch
       (showLoading (IHttpOptions.loading options) ;;
        emit (Request c) ;;
        unwrap (Axios_request c))
       (fun err =>
          handleError err (IHttpOptions.showError options)
            (IHttpOptions.skipServerErrorHandler options) ;;
          ret None))
    (hideLoading (IHttpOptions.loading options)).

(** [if (this.config.headers) { await Promise.all(...) }] *)
Definition header_phase (method : string) (options : IHttpOptions.t P)
  (headers : list (string * string)) : M (list (string * string)) :=
  match IHttpGlobalConfig.headers config with
  | Some tokens => resolve_headers method options tokens headers
  | None => ret headers
  end.

(** [httpBase(method, url, data, options)]: the options object as the call
    leaves it, and the run. *)
Definition httpBase (method url : string) (data : option R)
  (options : IHttpOptions.t P) : IHttpOptions.t P * M (option T) :=
  let options := normalize_skip options in
  (options,
   emit (AssignSkip (truthy_flag (IHttpOptions.skipServerErrorHandler options))) ;;
   let c := httpOptions method url data options in
   headers <- header_phase method options (AxiosRequestConfig.headers c) ;;
   dispatch (with_headers c headers) options).

(** [get(url, options = {})] *)
Definition get (url : string) (options : option (IHttpOptions.t P))
  : IHttpOptions.t P * M (option T) :=
  httpBase "get" url None
    (match options with Some o => o | None => IHttpOptions.empty end).

(** [post(url, data, options = {})] *)
Definition post (url : string) (data : option R) (options : option (IHttpOptions.t P))
  : IHttpOptions.t P * M (option T) :=
  httpBase "post" url data
    (match options with Some o => o | None => IHttpOptions.empty end).

(** ** Reading a trace *)

Definition is_show (e : ev) : bool :=
  match e with LoadingShow _ _ => true | _ => false end.

Definition is_hide (e : ev) : bool :=
  match e with LoadingHide _ _ => true | _ => false end.

Definition is_handler (e : ev) : bool :=
  match e with HandleServerError _ _ => true | _ => false end.

Definition is_request (e : ev) : bool :=
  match e with Request _ => true | _ => false end.

Definition count (p : ev -> bool) (tr : list ev) : nat :=
  List.length (filter p tr).

(** The calls of the global server-error handler that [handleError] makes
    for a [ServerException]. *)
Definition handler_calls (skip : option bool) (e : ServerException.t T) : list ev :=
  if truthy_flag skip then []
  else match IHttpGlobalConfig.handleServerError config with
       | Some h => [HandleServerError h e]
       | None => []
       end.

(** [err.response && err.response.status !== undefined] *)
Definition has_status (err : JsError.t) : bool :=
  match JsError.response err with
  | Some response =>
      match AxiosResponse.status response with Some _ => true | None => false end
  | None => false
  end.

(** The failure of an error object [err] is turned into the rejection
    [{code, msg}]: [handleError] passes [msg] to the display callback that
    the per-call option selects and throws a [ServerException] whose payload
    is [{code, msg}], and a call whose request is rejected with [err]
    rejects with that exception. *)
Definition rejected_as (err : JsError.t) (code msg : string) : Prop :=
  (forall se skip,
      handleError (ExnError err) se skip =
      (match se with
       | Provided f => [ShowError PerCall f msg]
       | NotSupplied =>
           match IHttpGlobalConfig.showError config with
           | Some g => [ShowError Global g msg]
           | None => []
           end
       | ExplicitlyEmpty => []
       end,
       Threw (ExnServer (ServerException.mk (ZyWebRes.mk code msg None)))))
  /\ (forall c options,
        Axios_request c = Rejects (ExnError err) ->
        result (dispatch c options) =
        Threw (ExnServer (ServerException.mk (ZyWebRes.mk code msg None)))).

(** The value a header provider fails with, if it fails. *)
Definition provider_failure (token : HeaderType.t T) : option (thrown T) :=
  match HeaderType.get token with
  | Function (Throws e) => Some e
  | Function (PromiseRejects e) => Some e
  | _ => None
  end.

(** [this.config.headers], none when the property is missing. *)
Definition providers : list (HeaderType.t T) :=
  match IHttpGlobalConfig.headers config with
  | Some tokens => tokens
  | None => []
  end.

(** Events of the indicator and of the transport. *)
Definition is_loading_or_request (e : ev) : bool :=
  is_show e || is_hide e || is_request e.

(** [needle] occurs in [s]. *)
Fixpoint contains (needle s : string) : bool :=
  match s with
  | EmptyString => String.eqb needle EmptyString
  | String _ rest => prefix needle s || contains needle rest
  end.

(** The configured base address, with its port if there is one. *)
Definition server_address : string :=
  match IHttpGlobalConfig.serverPort config with
  | Some port =>
      if String.eqb port EmptyString
      then IHttpGlobalConfig.serverBase config
      else (IHttpGlobalConfig.serverBase config ++ ":" ++ port)%string
  | None => IHttpGlobalConfig.serverBase config
  end.

(** The URL as the specification wants it: a ['/'] right after the server
    address, a ['/'] at the end, and no ['//'] from the end of the server
    address on. *)
Definition well_assembled (url : string) : bool :=
  let n := String.length server_address in
  prefix (server_address ++ "/") url
  && endsWith url "/"
  && negb (contains "//" (substring n (String.length url - n) url)).

(** [headers[key]] *)
Fixpoint header_lookup (key : string) (headers : list (string * string))
  : option string :=
  match headers with
  | [] => None
  | (k, v) :: rest => if String.eqb k key then Some v else header_lookup key rest
  end.

Definition is_display (e : ev) : bool :=
  match e with ShowError _ _ _ => true | _ => false end.

(** The string a header provider yields, if it does not fail. *)
Definition provider_value (token : HeaderType.t T) : option string :=
  match HeaderType.get token with
  | Literal s => Some s
  | Function (ReturnsString s) => Some s
  | Function (PromiseResolves s) => Some s
  | _ => None
  end.

(** The headers once the providers that take part and do not fail have
    written theirs, one after the other. *)
Definition written_headers (method : string) (tokens : list (HeaderType.t T))
  (headers : list (string * string)) : list (string * string) :=
  fold_left
    (fun hs token =>
       if applies method token then
         match provider_value token with
         | Some value => set_header (HeaderType.key token) value hs
         | None => hs
         end
       else hs)
    tokens headers.

(** The headers of the request configuration before any provider runs. *)
Definition default_headers : list (string * string) :=
  [("Content-Type", "application/json")].

(** * Properties *)

(** ** The monad *)

Lemma bind_ret_l {A B} (a : A) (k : A -> M B) : bind (ret a) k = k a.
Proof. unfold bind, ret. destruct (k a); reflexivity. Qed.

Lemma bind_ret_r {A} (m : M A) : bind m ret = m.
Proof.
  destruct m as [tr [a | e]]; unfold bind, ret; simpl; [rewrite app_nil_r|]; reflexivity.
Qed.

Lemma bind_assoc {A B C} (m : M A) (k : A -> M B) (h : B -> M C) :
  bind (bind m k) h = bind m (fun a => bind (k a) h).
Proof.
  destruct m as [tr [a | e]]; unfold bind; simpl; [|reflexivity].
  destruct (k a) as [tr' [b | e]]; [|reflexivity].
  destruct (h b) as [tr'' o]. rewrite app_assoc. reflexivity.
Qed.

Lemma trace_pair {A} (tr : list ev) (o : outcome T A) : trace (tr, o) = tr.
Proof. reflexivity. Qed.

Lemma result_pair {A} (tr : list ev) (o : outcome T A) : result (tr, o) = o.
Proof. reflexivity. Qed.

Lemma bind_trace_returned {A B} (m : M A) (k : A -> M B) (a : A) :
  result m = Returned a ->
  bind m k = (trace m ++ trace (k a), result (k a)).
Proof.
  destruct m as [tr o]; simpl; intros ->. unfold bind. destruct (k a); reflexivity.
Qed.

Lemma count_app (p : ev -> bool) (a b : list ev) :
  count p (a ++ b) = count p a + count p b.
Proof. unfold count. rewrite filter_app, length_app. reflexivity. Qed.

(** ** [showError], [showLoading], [hideLoading] *)

Lemma showError_returns (msg : string) (s : slot callback) :
  result (showError msg s) = Returned tt.
Proof.
  unfold showError. destruct s; simpl; try reflexivity.
  destruct (IHttpGlobalConfig.showError config); reflexivity.
Qed.

Lemma showError_only_displays (msg : string) (s : slot callback) (e : ev) :
  In e (trace (showError msg s)) -> exists o f, e = ShowError o f msg.
Proof.
  unfold showError. destruct s; simpl.
  - destruct (IHttpGlobalConfig.showError config); simpl; [|tauto].
    intros [<- | []]. eauto.
  - tauto.
  - intros [<- | []]. eauto.
Qed.

Lemma showError_eq (msg : string) (se : slot callback) :
  trace (showError msg se) =
  match se with
  | Provided f => [ShowError PerCall f msg]
  | NotSupplied =>
      match IHttpGlobalConfig.showError config with
      | Some g => [ShowError Global g msg]
      | None => []
      end
  | ExplicitlyEmpty => []
  end.
Proof.
  unfold showError. destruct se; simpl; try reflexivity.
  destruct (IHttpGlobalConfig.showError config); reflexivity.
Qed.

Lemma filter_none (p : ev -> bool) (tr : list ev) :
  (forall e, In e tr -> p e = false) -> filter p tr = [].
Proof.
  induction tr as [| e tr IH]; simpl; intros H; [reflexivity|].
  rewrite (H e) by auto. apply IH. auto.
Qed.

Lemma filter_all (p : ev -> bool) (tr : list ev) :
  (forall e, In e tr -> p e = true) -> filter p tr = tr.
Proof.
  induction tr as [| e tr IH]; simpl; intros H; [reflexivity|].
  rewrite (H e) by auto. rewrite IH by auto. reflexivity.
Qed.

Lemma showLoading_returns (l : slot ILoading.t) :
  result (showLoading l) = Returned tt.
Proof.
  unfold showLoading.
  destruct (and_member ILoading.show l); simpl;
    repeat match goal with
           | |- context [if ?b then _ else _] => destruct b
           | |- context [match ?x with Provided _ => _ | _ => _ end] => destruct x
           end; reflexivity.
Qed.

Lemma hideLoading_returns (l : slot ILoading.t) :
  result (hideLoading l) = Returned tt.
Proof.
  unfold hideLoading.
  destruct (and_member ILoading.hide l); simpl;
    repeat match goal with
           | |- context [if ?b then _ else _] => destruct b
           | |- context [match ?x with Provided _ => _ | _ => _ end] => destruct x
           end; reflexivity.
Qed.

(** C9. Error display distinguishes three states of the per-call
    [showError] option: a function is the only callback invoked, with the
    message; when the option is not supplied the global [showError] is
    invoked if configured; when it is supplied but falsy no display callback
    is invoked at all. *)
Theorem showError_three_way (msg : string) :
  (forall f, showError msg (Provided f) = ([ShowError PerCall f msg], Returned tt))
  /\ (forall g, IHttpGlobalConfig.showError config = Some g ->
        showError msg NotSupplied = ([ShowError Global g msg], Returned tt))
  /\ (IHttpGlobalConfig.showError config = None ->
        showError msg NotSupplied = ([], Returned tt))
  /\ showError msg ExplicitlyEmpty = ([], Returned tt).
Proof.
  unfold showError; simpl. repeat split.
  - intros g ->. reflexivity.
  - intros ->. reflexivity.
Qed.

(** ** [handleError] *)

Lemma status_family_5xx (status : Z) :
  (500 <= status <= 599)%Z -> status_family status = 5%Z.
Proof.
  intros H. unfold status_family. symmetry.
  apply Z.quot_unique with (r := (status - 500)%Z); lia.
Qed.

Lemma status_family_4xx (status : Z) :
  (400 <= status <= 499)%Z -> status_family status = 4%Z.
Proof.
  intros H. unfold status_family. symmetry.
  apply Z.quot_unique with (r := (status - 400)%Z); lia.
Qed.

Lemma handleError_error (e : JsError.t) (se : slot callback) (skip : option bool) :
  handleError (ExnError e) se skip =
  (trace (showError (snd (classify e)) se),
   Threw (rejection (fst (classify e)) (snd (classify e)))).
Proof.
  unfold handleError. destruct (classify e) as [code msg]; simpl.
  rewrite (bind_trace_returned _ _ tt) by apply showError_returns.
  simpl. rewrite app_nil_r. reflexivity.
Qed.

Lemma handleError_server (e : ServerException.t T) (se : slot callback)
  (skip : option bool) :
  handleError (ExnServer e) se skip =
  (trace (showError (ZyWebRes.msg (ServerException.payload e)) se)
     ++ handler_calls skip e,
   Threw (ExnServer e)).
Proof.
  unfold handleError, handler_calls.
  rewrite (bind_trace_returned _ _ tt) by apply showError_returns.
  destruct (truthy_flag skip); simpl.
  - reflexivity.
  - destruct (IHttpGlobalConfig.handleServerError config); reflexivity.
Qed.

Lemma handleError_nullish (se : slot callback) (skip : option bool) :
  exists what, handleError ExnNullish se skip = ([], Threw (ExnError (TypeError what))).
Proof. eexists. reflexivity. Qed.

(** [handleError] never returns: its call is always left by a [throw]. *)
Lemma handleError_throws (err : thrown T) (se : slot callback) (skip : option bool) :
  exists e, result (handleError err se skip) = Threw e.
Proof.
  destruct err as [e | e |].
  - rewrite handleError_server. simpl. eauto.
  - rewrite handleError_error. simpl. eauto.
  - destruct (handleError_nullish se skip) as [what ->]. simpl. eauto.
Qed.

(** What is not [null] or [undefined] leaves [handleError] as a
    [ServerException]. *)
Lemma handleError_structured (err : thrown T) (se : slot callback) (skip : option bool) :
  err <> ExnNullish ->
  exists e, result (handleError err se skip) = Threw (ExnServer e).
Proof.
  destruct err as [e | e |]; intros H.
  - rewrite handleError_server. simpl. eauto.
  - rewrite handleError_error. unfold rejection. simpl. eauto.
  - congruence.
Qed.

(** C7. A failure that is [null] or [undefined] has no HTTP status and is
    no [ServerException], yet it is not turned into [UNKNOWN_ERROR]:
    [handleError] displays nothing and leaves by the [TypeError] of reading
    [response], whatever the display option and the skip flag are. *)
Theorem nullish_failure_unclassified (se : slot callback) (skip : option bool) :
  handleError ExnNullish se skip =
  ([], Threw (ExnError
                (JsError.mk "TypeError" None None
                   (Some "Cannot read properties of undefined (reading 'response')"))))
  /\ forall ex, result (handleError ExnNullish se skip) <> Threw (ExnServer ex).
Proof. split; [reflexivity | intros ex; discriminate]. Qed.

(** ** The [try]/[catch]/[finally] statement *)

Lemma unwrap_silent (res : AxiosResult T) : trace (unwrap res) = [].
Proof.
  destruct res as [[p |] | err]; simpl; try reflexivity.
  destruct (negb _); reflexivity.
Qed.

Lemma unwrap_envelope_error (payload : ZyWebRes.t T) :
  ZyWebRes.code payload <> "OK" ->
  unwrap (Resolves (Some payload)) =
  ([], Threw (ExnServer (ServerException.mk payload))).
Proof.
  intros H. apply String.eqb_neq in H. unfold unwrap. rewrite H. reflexivity.
Qed.

Lemma unwrap_envelope_ok (payload : ZyWebRes.t T) :
  ZyWebRes.code payload = "OK" ->
  unwrap (Resolves (Some payload)) = ([], Returned (ZyWebRes.data payload)).
Proof. intros H. unfold unwrap. rewrite H. reflexivity. Qed.

Lemma dispatch_eq (c : AxiosRequestConfig.t R P) (options : IHttpOptions.t P) :
  dispatch c options =
  match result (unwrap (Axios_request c)) with
  | Returned d =>
      (trace (showLoading (IHttpOptions.loading options))
         ++ Request c :: trace (hideLoading (IHttpOptions.loading options)),
       Returned d)
  | Threw err =>
      (trace (showLoading (IHttpOptions.loading options))
         ++ Request c
         :: trace (handleError err (IHttpOptions.showError options)
                     (IHttpOptions.skipServerErrorHandler options))
         ++ trace (hideLoading (IHttpOptions.loading options)),
       match result (handleError err (IHttpOptions.showError options)
                       (IHttpOptions.skipServerErrorHandler options)) with
       | Threw e => Threw e
       | Returned _ => Returned None
       end)
  end.
Proof.
  unfold dispatch.
  pose proof (showLoading_returns (IHttpOptions.loading options)) as Hs.
  pose proof (hideLoading_returns (IHttpOptions.loading options)) as Hh.
  pose proof (unwrap_silent (Axios_request c)) as Hu.
  destruct (showLoading _) as [trs os]. destruct (hideLoading _) as [trh oh].
  destruct (unwrap _) as [tru ou]. simpl in *. subst.
  destruct ou as [d | err]; simpl.
  - rewrite <- app_assoc. reflexivity.
  - destruct (handleError _ _ _) as [tre [[] | e]]; simpl;
      rewrite <- ?app_assoc; simpl; rewrite ?app_nil_r; reflexivity.
Qed.

Lemma rejected_as_classify (e : JsError.t) (code msg : string) :
  classify e = (code, msg) -> rejected_as e code msg.
Proof.
  intros Hc. split.
  - intros se skip. rewrite handleError_error, Hc, showError_eq. reflexivity.
  - intros c options Ha. rewrite dispatch_eq, Ha.
    change (result (unwrap (Rejects (ExnError e)))) with (@Threw T (option T) (ExnError e)).
    cbv beta iota. rewrite handleError_error, Hc. reflexivity.
Qed.

(** C6. A failure that carries an HTTP status and is not a
    [ServerException] is rejected with a [ServerException] whose code is
    [SERVER_INTERNAL_ERROR] and whose message is the server-internal one
    when the status is in the 5xx family, and whose code is [URL_NOT_FOUND]
    and whose message is the not-found one when it is in the 4xx family:
    [handleError] throws it, and a call whose request is rejected with the
    failure rejects with it. *)
Theorem http_status_rejection (e : JsError.t) (r : AxiosResponse.t) (status : Z) :
  JsError.response e = Some r ->
  AxiosResponse.status r = Some status ->
  ((500 <= status <= 599)%Z ->
   (forall se skip,
       result (handleError (ExnError e) se skip) =
       Threw (ExnServer
                (ServerException.mk
                   (ZyWebRes.mk "SERVER_INTERNAL_ERROR" "服务器内部错误" None))))
   /\ (forall c options,
          Axios_request c = Rejects (ExnError e) ->
          result (dispatch c options) =
          Threw (ExnServer
                   (ServerException.mk
                      (ZyWebRes.mk "SERVER_INTERNAL_ERROR" "服务器内部错误" None)))))
  /\ ((400 <= status <= 499)%Z ->
      (forall se skip,
          result (handleError (ExnError e) se skip) =
          Threw (ExnServer
                   (ServerException.mk (ZyWebRes.mk "URL_NOT_FOUND" "URL找不到" None))))
      /\ (forall c options,
             Axios_request c = Rejects (ExnError e) ->
             result (dispatch c options) =
             Threw (ExnServer
                      (ServerException.mk
                         (ZyWebRes.mk "URL_NOT_FOUND" "URL找不到" None))))).
Proof.
  intros Hr Hs. split; intros Hrange.
  - assert (Hc : classify e = ("SERVER_INTERNAL_ERROR", "服务器内部错误")).
    { unfold classify. rewrite Hr, Hs, (status_family_5xx _ Hrange). reflexivity. }
    destruct (rejected_as_classify _ _ _ Hc) as [Hh Hd]. split.
    + intros se skip. rewrite Hh. reflexivity.
    + exact Hd.
  - assert (Hc : classify e = ("URL_NOT_FOUND", "URL找不到")).
    { unfold classify. rewrite Hr, Hs, (status_family_4xx _ Hrange). reflexivity. }
    destruct (rejected_as_classify _ _ _ Hc) as [Hh Hd]. split.
    + intros se skip. rewrite Hh. reflexivity.
    + exact Hd.
Qed.

Lemma is_string_true (x : option string) (lit : string) :
  is_string x lit = true <-> x = Some lit.
Proof.
  destruct x as [s |]; simpl.
  - rewrite String.eqb_eq. split; congruence.
  - split; discriminate.
Qed.

Lemma is_string_false (x : option string) (lit : string) :
  is_string x lit = false <-> x <> Some lit.
Proof.
  rewrite <- is_string_true. destruct (is_string x lit); split; congruence.
Qed.

Lemma classify_without_status (e : JsError.t) :
  has_status e = false ->
  classify e =
  if is_string (JsError.code e) "ECONNABORTED" then ("ECONNABORTED", "网络超时")
  else if is_string (JsError.message e) "Network Error"
       then ("NETWORK_ERROR", "无网络, 请检查您的网络连接")
       else ("UNKNOWN_ERROR", "未知错误").
Proof.
  unfold has_status, classify. intros H.
  assert (Hcode : is_string (JsError.code e) "ECONNABORTED" = true ->
                  JsError.code e = Some "ECONNABORTED") by apply is_string_true.
  destruct (JsError.response e) as [r |].
  - destruct (AxiosResponse.status r); [discriminate|].
    destruct (is_string (JsError.code e) _); [rewrite Hcode|]; reflexivity.
  - destruct (is_string (JsError.code e) _); [rewrite Hcode|]; reflexivity.
Qed.

(** How an error object without an HTTP status is classified: a timeout
    when its code is [ECONNABORTED]; otherwise a connectivity failure when
    its message is exactly ["Network Error"]; otherwise unknown. *)
Lemma transport_failure_rejection (e : JsError.t) :
  has_status e = false ->
  (JsError.code e = Some "ECONNABORTED" ->
   rejected_as e "ECONNABORTED" "网络超时")
  /\ (JsError.code e <> Some "ECONNABORTED" ->
      JsError.message e = Some "Network Error" ->
      rejected_as e "NETWORK_ERROR" "无网络, 请检查您的网络连接")
  /\ (JsError.code e <> Some "ECONNABORTED" ->
      JsError.message e <> Some "Network Error" ->
      rejected_as e "UNKNOWN_ERROR" "未知错误").
Proof.
  intros H. split; [|split].
  - intros Hc. apply rejected_as_classify.
    rewrite (classify_without_status _ H).
    apply (proj2 (is_string_true _ _)) in Hc. rewrite Hc. reflexivity.
  - intros Hc Hm. apply rejected_as_classify.
    rewrite (classify_without_status _ H).
    apply (proj2 (is_string_false _ _)) in Hc.
    apply (proj2 (is_string_true _ _)) in Hm. rewrite Hc, Hm. reflexivity.
  - intros Hc Hm. apply rejected_as_classify.
    rewrite (classify_without_status _ H).
    apply (proj2 (is_string_false _ _)) in Hc.
    apply (proj2 (is_string_false _ _)) in Hm. rewrite Hc, Hm. reflexivity.
Qed.

(** ** The header providers *)

Lemma resolve_header_eq (method : string) (options : IHttpOptions.t P)
  (token : HeaderType.t T) (headers : list (string * string)) :
  resolve_header method options token headers =
  if applies method token then
    match HeaderType.get token with
    | Literal s => ([], Returned (set_header (HeaderType.key token) s headers))
    | Function (ReturnsString s) | Function (PromiseResolves s) =>
        ([], Returned (set_header (HeaderType.key token) s headers))
    | Function (Throws e) | Function (PromiseRejects e) =>
        (trace (handleError e (IHttpOptions.showError options)
                  (IHttpOptions.skipServerErrorHandler options)),
         match result (handleError e (IHttpOptions.showError options)
                         (IHttpOptions.skipServerErrorHandler options)) with
         | Threw x => Threw x
         | Returned _ => Returned headers
         end)
    end
  else ([], Returned headers).
Proof.
  unfold resolve_header. destruct (applies method token); [|reflexivity].
  destruct (HeaderType.get token) as [s | [s | e | s | e]]; simpl; try reflexivity;
    destruct (handleError _ _ _) as [tr [[] | x]]; simpl;
    rewrite ?app_nil_r; reflexivity.
Qed.

(** A provider that does not fail is silent; one that fails runs
    [handleError] on what it failed with and rejects. *)
Lemma resolve_header_cases (method : string) (options : IHttpOptions.t P)
  (token : HeaderType.t T) (headers : list (string * string)) :
  (exists headers', resolve_header method options token headers = ([], Returned headers'))
  \/ (exists e x,
        provider_failure token = Some e
        /\ trace (resolve_header method options token headers) =
           trace (handleError e (IHttpOptions.showError options)
                    (IHttpOptions.skipServerErrorHandler options))
        /\ result (handleError e (IHttpOptions.showError options)
                     (IHttpOptions.skipServerErrorHandler options)) = Threw x
        /\ result (resolve_header method options token headers) = Threw x).
Proof.
  rewrite resolve_header_eq. unfold provider_failure.
  destruct (applies method token); [|eauto].
  destruct (HeaderType.get token) as [s | [s | e | s | e]]; eauto;
    destruct (handleError_throws e (IHttpOptions.showError options)
                (IHttpOptions.skipServerErrorHandler options)) as [x Hx];
    right; exists e, x; rewrite Hx; simpl; auto.
Qed.

(** A provider marked [postOnly] leaves the headers of a [get] as they are
    and sets its header on a [post]. *)
Lemma resolve_header_post_only (options : IHttpOptions.t P) (key value : string)
  (headers : list (string * string)) :
  resolve_header "get" options (HeaderType.mk key (Literal value) true) headers
  = ([], Returned headers)
  /\ resolve_header "post" options (HeaderType.mk key (Literal value) true) headers
     = ([], Returned (set_header key value headers)).
Proof. split; reflexivity. Qed.

Lemma settle_in_order_returned (method : string) (options : IHttpOptions.t P)
  (tokens : list (HeaderType.t T)) :
  forall headers headers',
    result (settle_in_order method options tokens headers) = Returned headers' ->
    trace (settle_in_order method options tokens headers) = [].
Proof.
  induction tokens as [| token rest IH]; intros headers headers'; simpl.
  - reflexivity.
  - destruct (resolve_header_cases method options token headers)
      as [[h1 ->] | (e & x & _ & _ & _ & Hr)].
    + specialize (IH h1 headers').
      destruct (settle_in_order method options rest h1) as [tr o]. simpl in *.
      exact IH.
    + destruct (resolve_header method options token headers) as [tr o].
      simpl in Hr. subst o. simpl. discriminate.
Qed.

Lemma settle_in_order_events (method : string) (options : IHttpOptions.t P)
  (tokens : list (HeaderType.t T)) (ev0 : ev) :
  forall headers,
    In ev0 (trace (settle_in_order method options tokens headers)) ->
    exists token e,
      In token tokens /\ provider_failure token = Some e
      /\ In ev0 (trace (handleError e (IHttpOptions.showError options)
                          (IHttpOptions.skipServerErrorHandler options))).
Proof.
  induction tokens as [| token rest IH]; intros headers; simpl.
  - tauto.
  - destruct (resolve_header_cases method options token headers)
      as [[h1 ->] | (e & x & Hf & Ht & _ & Hr)].
    + specialize (IH h1).
      destruct (settle_in_order method options rest h1) as [tr o]. simpl in *.
      intros H. destruct (IH H) as (t & e & ? & ? & ?). exists t, e. auto.
    + destruct (resolve_header method options token headers) as [tr o].
      simpl in Hr, Ht. subst o tr. simpl. rewrite in_app_iff. intros [H | H].
      * exists token, e. auto.
      * destruct (IH _ H) as (t & e' & ? & ? & ?). exists t, e'. auto.
Qed.

Lemma settle_in_order_threw (method : string) (options : IHttpOptions.t P)
  (tokens : list (HeaderType.t T)) (x : thrown T) :
  forall headers,
    result (settle_in_order method options tokens headers) = Threw x ->
    exists token e,
      In token tokens /\ provider_failure token = Some e
      /\ result (handleError e (IHttpOptions.showError options)
                   (IHttpOptions.skipServerErrorHandler options)) = Threw x.
Proof.
  induction tokens as [| token rest IH]; intros headers; simpl.
  - discriminate.
  - destruct (resolve_header_cases method options token headers)
      as [[h1 ->] | (e & y & Hf & _ & Hy & Hr)].
    + specialize (IH h1).
      destruct (settle_in_order method options rest h1) as [tr o]. simpl in *.
      intros H. destruct (IH H) as (t & e & ? & ? & ?). exists t, e. auto.
    + destruct (resolve_header method options token headers) as [tr o].
      simpl in Hr. subst o. simpl. intros H. injection H as <-.
      exists token, e. auto.
Qed.

Lemma In_schedule (tokens : list (HeaderType.t T)) (token : HeaderType.t T) :
  In token (schedule tokens) <-> In token tokens.
Proof.
  unfold schedule. rewrite in_app_iff, !filter_In.
  destruct (awaited token); simpl; intuition congruence.
Qed.

Lemma resolve_headers_returned (method : string) (options : IHttpOptions.t P)
  (tokens : list (HeaderType.t T)) (headers headers' : list (string * string)) :
  result (resolve_headers method options tokens headers) = Returned headers' ->
  trace (resolve_headers method options tokens headers) = [].
Proof. apply settle_in_order_returned. Qed.

Lemma resolve_headers_events (method : string) (options : IHttpOptions.t P)
  (tokens : list (HeaderType.t T)) (ev0 : ev) (headers : list (string * string)) :
  In ev0 (trace (resolve_headers method options tokens headers)) ->
  exists token e,
    In token tokens /\ provider_failure token = Some e
    /\ In ev0 (trace (handleError e (IHttpOptions.showError options)
                        (IHttpOptions.skipServerErrorHandler options))).
Proof.
  intros H. apply settle_in_order_events in H.
  destruct H as (token & e & Hin & Hf & H).
  apply (proj1 (In_schedule _ _)) in Hin. exists token, e. auto.
Qed.

Lemma resolve_headers_threw (method : string) (options : IHttpOptions.t P)
  (tokens : list (HeaderType.t T)) (x : thrown T) (headers : list (string * string)) :
  result (resolve_headers method options tokens headers) = Threw x ->
  exists token e,
    In token tokens /\ provider_failure token = Some e
    /\ result (handleError e (IHttpOptions.showError options)
                 (IHttpOptions.skipServerErrorHandler options)) = Threw x.
Proof.
  intros H. apply settle_in_order_threw in H.
  destruct H as (token & e & Hin & Hf & H).
  apply (proj1 (In_schedule _ _)) in Hin. exists token, e. auto.
Qed.

(** ** The whole call *)

Lemma httpBase_eq (method url : string) (data : option R) (options : IHttpOptions.t P) :
  let options' := normalize_skip options in
  let c := httpOptions method url data options' in
  snd (httpBase method url data options) =
  match header_phase method options' (AxiosRequestConfig.headers c) with
  | (tr, Returned headers) =>
      (AssignSkip (truthy_flag (IHttpOptions.skipServerErrorHandler options))
         :: tr ++ trace (dispatch (with_headers c headers) options'),
       result (dispatch (with_headers c headers) options'))
  | (tr, Threw e) =>
      (AssignSkip (truthy_flag (IHttpOptions.skipServerErrorHandler options)) :: tr,
       Threw e)
  end.
Proof.
  simpl. unfold httpBase. simpl.
  destruct (header_phase _ _ _) as [tr [headers | e]]; simpl.
  - destruct (dispatch _ _) as [tr' o]. simpl.
    destruct (IHttpOptions.skipServerErrorHandler options) as [[|] |]; reflexivity.
  - destruct (IHttpOptions.skipServerErrorHandler options) as [[|] |]; reflexivity.
Qed.

(** ** Which events a step can perform *)

Lemma count_none (p : ev -> bool) (tr : list ev) :
  (forall e, In e tr -> p e = false) -> count p tr = 0.
Proof.
  unfold count. induction tr as [| e tr IH]; simpl; intros H; [reflexivity|].
  rewrite (H e) by auto. apply IH. auto.
Qed.

Lemma handler_calls_events (skip : option bool) (ex : ServerException.t T) (e : ev) :
  In e (handler_calls skip ex) ->
  truthy_flag skip = false
  /\ exists h, IHttpGlobalConfig.handleServerError config = Some h
               /\ e = HandleServerError h ex.
Proof.
  unfold handler_calls. destruct (truthy_flag skip); simpl; [tauto|].
  destruct (IHttpGlobalConfig.handleServerError config) as [h |]; simpl; [|tauto].
  intros [<- | []]. eauto.
Qed.

Lemma handleError_events (err : thrown T) (se : slot callback) (skip : option bool)
  (e : ev) :
  In e (trace (handleError err se skip)) ->
  (exists o f m, e = ShowError o f m)
  \/ (exists h ex, err = ExnServer ex /\ e = HandleServerError h ex).
Proof.
  destruct err as [ex | x |].
  - rewrite handleError_server. simpl. rewrite in_app_iff. intros [H | H].
    + apply showError_only_displays in H. destruct H as (o & f & ->). eauto.
    + apply handler_calls_events in H. destruct H as (_ & h & _ & ->). eauto.
  - rewrite handleError_error. simpl. intros H.
    apply showError_only_displays in H. destruct H as (o & f & ->). eauto.
  - simpl. tauto.
Qed.

Lemma handleError_no_loading (err : thrown T) (se : slot callback) (skip : option bool)
  (e : ev) :
  In e (trace (handleError err se skip)) -> is_loading_or_request e = false.
Proof.
  intros H. apply handleError_events in H.
  destruct H as [(o & f & m & ->) | (h & ex & _ & ->)]; reflexivity.
Qed.

Lemma showError_no_handler (msg : string) (se : slot callback) :
  count is_handler (trace (showError msg se)) = 0.
Proof.
  apply count_none. intros e H. apply showError_only_displays in H.
  destruct H as (o & f & ->). reflexivity.
Qed.

Lemma showLoading_events (l : slot ILoading.t) (e : ev) :
  In e (trace (showLoading l)) ->
  (exists f, and_member ILoading.show l = Provided f /\ e = LoadingShow PerCall f)
  \/ (exists g, is_undefined l || and_member_undefined ILoading.show l = true
                /\ and_member ILoading.show (IHttpGlobalConfig.loading config) = Provided g
                /\ e = LoadingShow Global g).
Proof.
  unfold showLoading.
  destruct (and_member ILoading.show l) as [| | f] eqn:Hl; simpl.
  - destruct (is_undefined l || _); simpl; [|tauto].
    destruct (and_member ILoading.show (IHttpGlobalConfig.loading config)); simpl;
      try tauto.
    intros [<- | []]. right. eauto.
  - destruct (is_undefined l || _); simpl; [|tauto].
    destruct (and_member ILoading.show (IHttpGlobalConfig.loading config)); simpl;
      try tauto.
    intros [<- | []]. right. eauto.
  - intros [<- | []]. left. eauto.
Qed.

Lemma showLoading_at_most_one (l : slot ILoading.t) :
  List.length (trace (showLoading l)) <= 1.
Proof.
  unfold showLoading.
  destruct (and_member ILoading.show l); simpl;
    repeat match goal with
           | |- context [if ?b then _ else _] => destruct b
           | |- context [match ?x with Provided _ => _ | _ => _ end] => destruct x
           end; simpl; lia.
Qed.

Lemma hideLoading_at_most_one (l : slot ILoading.t) :
  List.length (trace (hideLoading l)) <= 1.
Proof.
  unfold hideLoading.
  destruct (and_member ILoading.hide l); simpl;
    repeat match goal with
           | |- context [if ?b then _ else _] => destruct b
           | |- context [match ?x with Provided _ => _ | _ => _ end] => destruct x
           end; simpl; lia.
Qed.

Lemma hideLoading_events (l : slot ILoading.t) (e : ev) :
  In e (trace (hideLoading l)) -> exists o f, e = LoadingHide o f.
Proof.
  unfold hideLoading.
  destruct (and_member ILoading.hide l); simpl;
    repeat match goal with
           | |- context [if ?b then _ else _] => destruct b
           | |- context [match ?x with Provided _ => _ | _ => _ end] => destruct x
           end; simpl; try tauto; intros [<- | []]; eauto.
Qed.

Lemma count_le_length (p : ev -> bool) (tr : list ev) :
  count p tr <= List.length tr.
Proof. unfold count. apply filter_length_le. Qed.

Lemma showLoading_no_handler (l : slot ILoading.t) :
  count is_handler (trace (showLoading l)) = 0.
Proof.
  apply count_none. intros e H. apply showLoading_events in H.
  destruct H as [(f & _ & ->) | (g & _ & _ & ->)]; reflexivity.
Qed.

Lemma hideLoading_no_handler (l : slot ILoading.t) :
  count is_handler (trace (hideLoading l)) = 0.
Proof.
  apply count_none. intros e H. apply hideLoading_events in H.
  destruct H as (o & f & ->). reflexivity.
Qed.

Lemma header_phase_events (method : string) (options : IHttpOptions.t P)
  (headers : list (string * string)) (e : ev) :
  In e (trace (header_phase method options headers)) ->
  exists token x,
    In token providers /\ provider_failure token = Some x
    /\ In e (trace (handleError x (IHttpOptions.showError options)
                      (IHttpOptions.skipServerErrorHandler options))).
Proof.
  unfold header_phase, providers.
  destruct (IHttpGlobalConfig.headers config) as [tokens |].
  - apply resolve_headers_events.
  - simpl. tauto.
Qed.

Lemma showLoading_no_display_or_handler (l : slot ILoading.t) :
  filter (fun e => is_display e || is_handler e) (trace (showLoading l)) = [].
Proof.
  apply filter_none. intros e H. apply showLoading_events in H.
  destruct H as [(f & _ & ->) | (g & _ & _ & ->)]; reflexivity.
Qed.

Lemma hideLoading_no_display_or_handler (l : slot ILoading.t) :
  filter (fun e => is_display e || is_handler e) (trace (hideLoading l)) = [].
Proof.
  apply filter_none. intros e H. apply hideLoading_events in H.
  destruct H as (o & f & ->). reflexivity.
Qed.

(** C8, as the code has it.  The global server-error handler is invoked
    for a [ServerException] only.  For a failure that is any other error
    object (an HTTP error status, a timeout, a connectivity failure, an
    unclassified error) the message of the rejection goes to the per-call
    [showError] when that is a function, to the global [showError] when the
    per-call option is not supplied and a global one is configured, and to no
    callback otherwise; the handler is not invoked, in [handleError] or in
    the call.  A handler invocation found in the trace of a call comes from a
    [ServerException] that a header provider or the [try] block failed
    with. *)
Theorem handler_only_for_server_exceptions :
  (forall (e : JsError.t) se skip,
      exists code msg,
        handleError (ExnError e) se skip =
        (match se with
         | Provided f => [ShowError PerCall f msg]
         | NotSupplied =>
             match IHttpGlobalConfig.showError config with
             | Some g => [ShowError Global g msg]
             | None => []
             end
         | ExplicitlyEmpty => []
         end,
         Threw (ExnServer (ServerException.mk (ZyWebRes.mk code msg None)))))
  /\ (forall c options (e : JsError.t),
         Axios_request c = Rejects (ExnError e) ->
         exists code msg,
           result (dispatch c options) =
           Threw (ExnServer (ServerException.mk (ZyWebRes.mk code msg None)))
           /\ filter (fun ev => is_display ev || is_handler ev)
                (trace (dispatch c options)) =
              match IHttpOptions.showError options with
              | Provided f => [ShowError PerCall f msg]
              | NotSupplied =>
                  match IHttpGlobalConfig.showError config with
                  | Some g => [ShowError Global g msg]
                  | None => []
                  end
              | ExplicitlyEmpty => []
              end)
  /\ (forall method url data options h ex,
         In (HandleServerError h ex) (trace (snd (httpBase method url data options))) ->
         (exists token,
             In token providers /\ provider_failure token = Some (ExnServer ex))
         \/ (exists c, result (unwrap (Axios_request c)) = Threw (ExnServer ex))).
Proof.
  split; [|split].
  - intros e se skip. exists (fst (classify e)), (snd (classify e)).
    rewrite handleError_error, showError_eq. reflexivity.
  - intros c options e Ha. exists (fst (classify e)), (snd (classify e)).
    rewrite dispatch_eq, Ha.
    change (result (unwrap (Rejects (ExnError e))))
      with (@Threw T (option T) (ExnError e)).
    cbv beta iota. rewrite handleError_error. split; [reflexivity|].
    unfold trace at 1. cbn [fst].
    change (Request c :: ?x) with ([@Request T R P c] ++ x).
    rewrite !filter_app, showLoading_no_display_or_handler,
      hideLoading_no_display_or_handler, showError_eq.
    simpl. rewrite app_nil_r.
    destruct (IHttpOptions.showError options); simpl; try reflexivity.
    destruct (IHttpGlobalConfig.showError config); reflexivity.
  - intros method url data options h ex. rewrite httpBase_eq.
    set (options' := normalize_skip options).
    set (c := httpOptions method url data options').
    assert (Hhdr : forall tr,
               tr = trace (header_phase method options' (AxiosRequestConfig.headers c)) ->
               In (HandleServerError h ex) tr ->
               exists token,
                 In token providers /\ provider_failure token = Some (ExnServer ex)).
    { intros tr -> H. apply header_phase_events in H.
      destruct H as (token & x & Hin & Hf & H).
      apply handleError_events in H.
      destruct H as [(o & f & m & H) | (h' & ex' & -> & H)]; [discriminate|].
      injection H as _ <-. eauto. }
    destruct (header_phase method options' (AxiosRequestConfig.headers c))
      as [tr [headers | x]]; simpl in *.
    + intros [H | H]; [discriminate|]. apply in_app_iff in H. destruct H as [H | H].
      * left. eapply Hhdr; eauto.
      * right. exists (with_headers c headers). revert H. rewrite dispatch_eq.
        destruct (result (unwrap (Axios_request (with_headers c headers))))
          as [d | err]; simpl; rewrite in_app_iff; simpl.
        -- intros [H | [H | H]]; [| discriminate |].
           ++ apply showLoading_events in H.
              destruct H as [(f & _ & H) | (g & _ & _ & H)]; discriminate.
           ++ apply hideLoading_events in H. destruct H as (o & f & H). discriminate.
        -- rewrite in_app_iff. intros [H | [H | [H | H]]]; [| discriminate | |].
           ++ apply showLoading_events in H.
              destruct H as [(f & _ & H) | (g & _ & _ & H)]; discriminate.
           ++ apply handleError_events in H.
              destruct H as [(o & f & m & H) | (h' & ex' & -> & H)]; [discriminate|].
              injection H as _ <-. reflexivity.
           ++ apply hideLoading_events in H. destruct H as (o & f & H). discriminate.
    + intros [H | H]; [discriminate|]. left. eapply Hhdr; eauto.
Qed.

Lemma header_phase_returned (method : string) (options : IHttpOptions.t P)
  (headers headers' : list (string * string)) :
  result (header_phase method options headers) = Returned headers' ->
  trace (header_phase method options headers) = [].
Proof.
  unfold header_phase. destruct (IHttpGlobalConfig.headers config) as [tokens |].
  - apply resolve_headers_returned.
  - reflexivity.
Qed.

Lemma handler_calls_normalized (options : IHttpOptions.t P) (ex : ServerException.t T) :
  handler_calls (IHttpOptions.skipServerErrorHandler (normalize_skip options)) ex =
  handler_calls (IHttpOptions.skipServerErrorHandler options) ex.
Proof.
  unfold handler_calls. simpl.
  destruct (IHttpOptions.skipServerErrorHandler options) as [[|] |]; reflexivity.
Qed.

Lemma handler_calls_count (skip : option bool) (ex : ServerException.t T) :
  count is_handler (handler_calls skip ex) =
  if truthy_flag skip then 0
  else match IHttpGlobalConfig.handleServerError config with
       | Some _ => 1
       | None => 0
       end.
Proof.
  unfold handler_calls. destruct (truthy_flag skip); [reflexivity|].
  destruct (IHttpGlobalConfig.handleServerError config); reflexivity.
Qed.

(** C2, as the code has it.  When the header providers have resolved and
    the response is an envelope whose code is not ["OK"], the call rejects
    with the [ServerException] that carries that envelope, hence its code and
    message.  The envelope's message goes to the per-call [showError] when
    that is a function, to the global [showError] when the per-call option is
    not supplied and a global one is configured, and to no callback
    otherwise.  The global server-error handler is then invoked once, with
    the exception, when it is configured and [skipServerErrorHandler] is not
    set, and not at all otherwise. *)
Theorem logical_failure_rejection (method url : string) (data : option R)
  (options : IHttpOptions.t P) (headers : list (string * string))
  (payload : ZyWebRes.t T) :
  let options' := normalize_skip options in
  let c := httpOptions method url data options' in
  let ex := ServerException.mk payload in
  result (header_phase method options' (AxiosRequestConfig.headers c))
    = Returned headers ->
  Axios_request (with_headers c headers) = Resolves (Some payload) ->
  ZyWebRes.code payload <> "OK" ->
  snd (httpBase method url data options) =
    (AssignSkip (truthy_flag (IHttpOptions.skipServerErrorHandler options))
       :: trace (showLoading (IHttpOptions.loading options))
       ++ Request (with_headers c headers)
       :: (match IHttpOptions.showError options with
           | Provided f => [ShowError PerCall f (ZyWebRes.msg payload)]
           | NotSupplied =>
               match IHttpGlobalConfig.showError config with
               | Some g => [ShowError Global g (ZyWebRes.msg payload)]
               | None => []
               end
           | ExplicitlyEmpty => []
           end
           ++ (if truthy_flag (IHttpOptions.skipServerErrorHandler options) then []
               else match IHttpGlobalConfig.handleServerError config with
                    | Some h => [HandleServerError h ex]
                    | None => []
                    end))
       ++ trace (hideLoading (IHttpOptions.loading options)),
     Threw (ExnServer ex))
  /\ count is_handler (trace (snd (httpBase method url data options))) =
     (if truthy_flag (IHttpOptions.skipServerErrorHandler options) then 0
      else match IHttpGlobalConfig.handleServerError config with
           | Some _ => 1
           | None => 0
           end)
  /\ count is_display (trace (snd (httpBase method url data options))) =
     match IHttpOptions.showError options with
     | Provided _ => 1
     | NotSupplied =>
         match IHttpGlobalConfig.showError config with
         | Some _ => 1
         | None => 0
         end
     | ExplicitlyEmpty => 0
     end.
Proof.
  intros options' c ex Hh Ha Hc.
  assert (Heq : snd (httpBase method url data options) =
    (AssignSkip (truthy_flag (IHttpOptions.skipServerErrorHandler options))
       :: trace (showLoading (IHttpOptions.loading options))
       ++ Request (with_headers c headers)
       :: (trace (showError (ZyWebRes.msg payload) (IHttpOptions.showError options))
             ++ handler_calls (IHttpOptions.skipServerErrorHandler options) ex)
       ++ trace (hideLoading (IHttpOptions.loading options)),
     Threw (ExnServer ex))).
  { rewrite httpBase_eq. fold options'. fold c.
    pose proof (header_phase_returned _ _ _ _ Hh) as Ht.
    destruct (header_phase method options' (AxiosRequestConfig.headers c)) as [tr o].
    simpl in Hh, Ht. subst tr o.
    rewrite dispatch_eq, Ha, (unwrap_envelope_error _ Hc).
    cbv beta iota delta [result snd]. fold ex.
    rewrite handleError_server. unfold options'.
    rewrite handler_calls_normalized. reflexivity. }
  assert (Hshow : forall p, (forall o f, p (@LoadingShow T R P o f) = false) ->
                            count p (trace (showLoading (IHttpOptions.loading options)))
                            = 0).
  { intros p Hp. apply count_none. intros e H. apply showLoading_events in H.
    destruct H as [(f & _ & ->) | (g & _ & _ & ->)]; apply Hp. }
  assert (Hhide : forall p, (forall o f, p (@LoadingHide T R P o f) = false) ->
                            count p (trace (hideLoading (IHttpOptions.loading options)))
                            = 0).
  { intros p Hp. apply count_none. intros e H. apply hideLoading_events in H.
    destruct H as (o & f & ->). apply Hp. }
  assert (Hd : count is_display
                 (handler_calls (IHttpOptions.skipServerErrorHandler options) ex) = 0).
  { apply count_none. intros e H. apply handler_calls_events in H.
    destruct H as (_ & h & _ & ->). reflexivity. }
  split; [|split].
  - rewrite Heq, showError_eq. reflexivity.
  - rewrite Heq. simpl trace.
    change (AssignSkip ?b :: ?x) with ([@AssignSkip T R P b] ++ x).
    change (Request ?r :: ?x) with ([@Request T R P r] ++ x).
    rewrite !count_app, !Hshow, !Hhide, showError_no_handler, handler_calls_count
      by reflexivity.
    unfold count. simpl. lia.
  - rewrite Heq. simpl trace.
    change (AssignSkip ?b :: ?x) with ([@AssignSkip T R P b] ++ x).
    change (Request ?r :: ?x) with ([@Request T R P r] ++ x).
    rewrite !count_app, !Hshow, !Hhide, Hd, showError_eq by reflexivity.
    destruct (IHttpOptions.showError options); simpl; try reflexivity.
    destruct (IHttpGlobalConfig.showError config); reflexivity.
Qed.

(** C10. [httpBase] writes to the options object it is given, and to one
    property only: [skipServerErrorHandler] becomes [false] when it was
    missing or falsy and stays [true] when it was [true]; every other
    property is left as it was.  The write is the first thing the call
    does, before any request is dispatched, and [get] and [post] pass the
    caller's object on to it. *)
Theorem httpBase_normalizes_skip (method url : string) (data : option R)
  (options : IHttpOptions.t P) :
  let after := fst (httpBase method url data options) in
  (truthy_flag (IHttpOptions.skipServerErrorHandler options) = false ->
   IHttpOptions.skipServerErrorHandler after = Some false)
  /\ (truthy_flag (IHttpOptions.skipServerErrorHandler options) = true ->
      after = options)
  /\ IHttpOptions.timeout after = IHttpOptions.timeout options
  /\ IHttpOptions.params after = IHttpOptions.params options
  /\ IHttpOptions.showError after = IHttpOptions.showError options
  /\ IHttpOptions.loading after = IHttpOptions.loading options
  /\ (exists rest,
         trace (snd (httpBase method url data options)) =
         AssignSkip (truthy_flag (IHttpOptions.skipServerErrorHandler options)) :: rest
         /\ forall c, In (Request c) (trace (snd (httpBase method url data options))) ->
                      In (Request c) rest)
  /\ get url (Some options) = httpBase "get" url None options
  /\ post url data (Some options) = httpBase "post" url data options.
Proof.
  intros after.
  assert (Hafter : after = normalize_skip options) by reflexivity.
  rewrite Hafter. clear after Hafter.
  split; [|split; [|split; [|split; [|split; [|split; [|split; [|split]]]]]]];
    try reflexivity.
  - intros H. unfold normalize_skip. simpl. rewrite H. reflexivity.
  - destruct options as [t p se l [[|] |]]; simpl; intros H;
      [reflexivity | discriminate | discriminate].
  - rewrite httpBase_eq.
    destruct (header_phase _ _ _) as [tr [headers | e]]; simpl;
      eexists; (split; [reflexivity|]); intros c [H | H]; (discriminate || exact H).
Qed.

(** ** The loading indicator *)

Lemma not_loading_or_request (e : ev) :
  is_loading_or_request e = false ->
  is_show e = false /\ is_hide e = false /\ is_request e = false.
Proof.
  unfold is_loading_or_request. intros H.
  apply orb_false_elim in H. destruct H as [H ?].
  apply orb_false_elim in H. tauto.
Qed.

Lemma showLoading_no_hide (l : slot ILoading.t) :
  count is_hide (trace (showLoading l)) = 0.
Proof.
  apply count_none. intros e H. apply showLoading_events in H.
  destruct H as [(f & _ & ->) | (g & _ & _ & ->)]; reflexivity.
Qed.

Lemma hideLoading_no_show (l : slot ILoading.t) :
  count is_show (trace (hideLoading l)) = 0.
Proof.
  apply count_none. intros e H. apply hideLoading_events in H.
  destruct H as (o & f & ->). reflexivity.
Qed.

Lemma hideLoading_per_call (l : slot ILoading.t) :
  truthy (and_member ILoading.hide l) = true ->
  count is_hide (trace (hideLoading l)) = 1.
Proof.
  unfold hideLoading. destruct (and_member ILoading.hide l); simpl; try discriminate.
  reflexivity.
Qed.

Lemma hideLoading_global (l : slot ILoading.t) :
  is_undefined l || and_member_undefined ILoading.show l = true ->
  and_member ILoading.hide l = NotSupplied ->
  truthy (and_member ILoading.hide (IHttpGlobalConfig.loading config)) = true ->
  count is_hide (trace (hideLoading l)) = 1.
Proof.
  unfold hideLoading. intros Hs Hh Hg.
  destruct (and_member ILoading.hide (IHttpGlobalConfig.loading config));
    try discriminate.
  destruct l as [| | [[| | s] [| | h]]]; simpl in *; try discriminate; reflexivity.
Qed.

(** The trace of a call: the write to the options object, what the header
    providers' failures caused, and, when no provider failed, the indicator
    shown, the request, the handling of a failure, the indicator hidden. *)
Lemma httpBase_trace_shape (method url : string) (data : option R)
  (options : IHttpOptions.t P) :
  let l := IHttpOptions.loading options in
  exists b pre,
    (forall e, In e pre -> is_loading_or_request e = false)
    /\ (trace (snd (httpBase method url data options)) = AssignSkip b :: pre
        \/ exists c mid,
             (forall e, In e mid -> is_loading_or_request e = false)
             /\ trace (snd (httpBase method url data options)) =
                (AssignSkip b :: pre ++ trace (showLoading l))
                  ++ (Request c :: mid) ++ trace (hideLoading l)).
Proof.
  intros l. rewrite httpBase_eq.
  set (options' := normalize_skip options).
  set (c := httpOptions method url data options').
  exists (truthy_flag (IHttpOptions.skipServerErrorHandler options)).
  exists (trace (header_phase method options' (AxiosRequestConfig.headers c))).
  split.
  { intros e H. apply header_phase_events in H.
    destruct H as (token & x & _ & _ & H). eapply handleError_no_loading; eauto. }
  destruct (header_phase method options' (AxiosRequestConfig.headers c))
    as [tr [headers | x]]; simpl; [|auto].
  right. exists (with_headers c headers). rewrite dispatch_eq.
  destruct (result (unwrap (Axios_request (with_headers c headers)))) as [d | err];
    simpl.
  - exists []. split; [simpl; tauto|]. rewrite <- app_assoc. reflexivity.
  - eexists. split; [apply handleError_no_loading|].
    rewrite <- app_assoc. reflexivity.
Qed.

(** C4, as the code has it.  In every call, whether it resolves or rejects,
    at most one [show] and at most one [hide] are invoked and no [hide]
    comes before the [show].  When a [show] was invoked and the per-call
    indicator supplies [hide], or the [show] invoked was the global
    indicator's, the per-call options leave [hide] undefined and the global
    indicator supplies [hide], exactly one [hide] is invoked. *)
Theorem loading_pairing (method url : string) (data : option R)
  (options : IHttpOptions.t P) :
  let tr := trace (snd (httpBase method url data options)) in
  let l := IHttpOptions.loading options in
  count is_show tr <= 1
  /\ count is_hide tr <= 1
  /\ (exists before after,
         tr = before ++ after
         /\ count is_hide before = 0 /\ count is_show after = 0)
  /\ (forall o f,
         In (LoadingShow o f) tr ->
         truthy (and_member ILoading.hide l) = true
         \/ (o = Global
             /\ and_member ILoading.hide l = NotSupplied
             /\ truthy (and_member ILoading.hide (IHttpGlobalConfig.loading config))
                = true) ->
         count is_hide tr = 1).
Proof.
  intros tr l. subst tr.
  destruct (httpBase_trace_shape method url data options)
    as (b & pre & Hpre & [-> | (c & mid & Hmid & ->)]); fold l.
  - assert (Hs : count is_show (AssignSkip b :: pre) = 0).
    { apply count_none. intros e [<- | H]; [reflexivity|].
      apply Hpre, not_loading_or_request in H. tauto. }
    assert (Hh : count is_hide (AssignSkip b :: pre) = 0).
    { apply count_none. intros e [<- | H]; [reflexivity|].
      apply Hpre, not_loading_or_request in H. tauto. }
    rewrite Hs, Hh. repeat split; try lia.
    + exists (AssignSkip b :: pre), []. rewrite app_nil_r. auto.
    + intros o f [H | H]; [discriminate|].
      apply Hpre in H. discriminate.
  - assert (Hps : count is_show (AssignSkip b :: pre) = 0).
    { apply count_none. intros e [<- | H]; [reflexivity|].
      apply Hpre, not_loading_or_request in H. tauto. }
    assert (Hph : count is_hide (AssignSkip b :: pre) = 0).
    { apply count_none. intros e [<- | H]; [reflexivity|].
      apply Hpre, not_loading_or_request in H. tauto. }
    assert (Hms : count is_show (Request c :: mid) = 0).
    { apply count_none. intros e [<- | H]; [reflexivity|].
      apply Hmid, not_loading_or_request in H. tauto. }
    assert (Hmh : count is_hide (Request c :: mid) = 0).
    { apply count_none. intros e [<- | H]; [reflexivity|].
      apply Hmid, not_loading_or_request in H. tauto. }
    change (AssignSkip b :: pre ++ trace (showLoading l))
      with ((AssignSkip b :: pre) ++ trace (showLoading l)).
    pose proof (showLoading_at_most_one l) as Hs1.
    pose proof (hideLoading_at_most_one l) as Hh1.
    pose proof (count_le_length is_show (trace (showLoading l))) as Hs2.
    pose proof (count_le_length is_hide (trace (hideLoading l))) as Hh2.
    rewrite !count_app, Hps, Hph, Hms, Hmh, showLoading_no_hide, hideLoading_no_show.
    repeat split; try lia.
    + exists ((AssignSkip b :: pre) ++ trace (showLoading l)),
        ((Request c :: mid) ++ trace (hideLoading l)).
      rewrite !count_app, Hph, Hms, showLoading_no_hide, hideLoading_no_show. auto.
    + intros o f Hin Hhide. simpl.
      destruct Hhide as [Hp | [-> [Hu Hg]]].
      * apply hideLoading_per_call. exact Hp.
      * apply hideLoading_global; [|exact Hu|exact Hg].
        rewrite !in_app_iff in Hin. destruct Hin as [[Hin | Hin] | [Hin | Hin]].
        -- destruct Hin as [Hin | Hin]; [discriminate|].
           apply Hpre in Hin. discriminate.
        -- apply showLoading_events in Hin.
           destruct Hin as [(f' & _ & Hin) | (g & Hc & _ & _)];
             [discriminate | exact Hc].
        -- destruct Hin as [Hin | Hin]; [discriminate|].
           apply Hmid in Hin. discriminate.
        -- apply hideLoading_events in Hin. destruct Hin as (o & f' & Hin).
           discriminate.
Qed.

(** Outside the failures that are [null] or [undefined], what a call
    rejects with is a [ServerException]. *)
Lemma httpBase_structured (method url : string) (data : option R)
  (options : IHttpOptions.t P) :
  (forall token, In token providers -> provider_failure token <> Some ExnNullish) ->
  (forall c, Axios_request c <> Rejects ExnNullish) ->
  (exists d, result (snd (httpBase method url data options)) = Returned d)
  \/ (exists ex, result (snd (httpBase method url data options)) = Threw (ExnServer ex)).
Proof.
  intros Hp Ha. rewrite httpBase_eq.
  set (options' := normalize_skip options).
  set (c := httpOptions method url data options').
  destruct (header_phase method options' (AxiosRequestConfig.headers c))
    as [tr [headers | x]] eqn:Hh; simpl.
  - rewrite dispatch_eq.
    destruct (result (unwrap (Axios_request (with_headers c headers))))
      as [d | err] eqn:Hu.
    { left. exists d. reflexivity. }
    assert (Hne : err <> ExnNullish).
    { intros ->. specialize (Ha (with_headers c headers)).
      destruct (Axios_request (with_headers c headers)) as [[p |] | e]; simpl in Hu.
      - destruct (negb _); discriminate.
      - discriminate.
      - apply Ha. congruence. }
    destruct (handleError_structured err (IHttpOptions.showError options')
                (IHttpOptions.skipServerErrorHandler options') Hne) as [ex Hex].
    right. exists ex. unfold result in Hex |- *. cbn [snd]. rewrite Hex. reflexivity.
  - right.
    assert (Hx : result (header_phase method options' (AxiosRequestConfig.headers c))
                 = Threw x) by (rewrite Hh; reflexivity).
    unfold header_phase in Hx. fold providers in Hp. unfold providers in Hp.
    destruct (IHttpGlobalConfig.headers config) as [tokens |]; [|discriminate].
    apply resolve_headers_threw in Hx. destruct Hx as (token & e & Hin & Hf & Hx).
    assert (Hne : e <> ExnNullish).
    { intros ->. exact (Hp token Hin Hf). }
    destruct (handleError_structured e (IHttpOptions.showError options')
                (IHttpOptions.skipServerErrorHandler options') Hne) as [ex Hex].
    exists ex. congruence.
Qed.

(** ** The request URL *)

Lemma append_empty_r (s : string) : (s ++ EmptyString)%string = s.
Proof. induction s as [| c s IH]; simpl; [|rewrite IH]; reflexivity. Qed.

Lemma append_assoc_string (a b c : string) :
  ((a ++ b) ++ c)%string = (a ++ (b ++ c))%string.
Proof. induction a as [| x a IH]; simpl; [|rewrite IH]; reflexivity. Qed.

Lemma endsWith_append (a b suffix : string) :
  endsWith b suffix = true -> endsWith (a ++ b) suffix = true.
Proof.
  intros H. induction a as [| c a IH]; simpl; [exact H|].
  rewrite IH. apply orb_true_r.
Qed.

(** C3, as the code has it.  The request URL is the base, then [:port/]
    when a port is configured, then the path as given, then ['/'] unless the
    path already ends with ['/']: it always ends with ['/'], and a path that
    ends with ['/'] gets no second one.  With no port configured, base and
    path are joined as given, so the ['/'] a path begins with is the one
    after the base; for base [http://api.test] and path ['/users'] the URL is
    [http://api.test/users/]. *)
Theorem url_assembly :
  (forall path, endsWith (request_url path) "/" = true)
  /\ (forall port path,
         IHttpGlobalConfig.serverPort config = Some port ->
         port <> EmptyString ->
         request_url path =
         (IHttpGlobalConfig.serverBase config ++ ":" ++ port ++ "/" ++ path
            ++ (if endsWith path "/" then EmptyString else "/"))%string)
  /\ (IHttpGlobalConfig.serverPort config = None
      \/ IHttpGlobalConfig.serverPort config = Some EmptyString ->
      forall path,
        request_url path =
        (IHttpGlobalConfig.serverBase config ++ path
           ++ (if endsWith path "/" then EmptyString else "/"))%string)
  /\ (IHttpGlobalConfig.serverPort config = None ->
      IHttpGlobalConfig.serverBase config = "http://api.test" ->
      request_url "/users" = "http://api.test/users/").
Proof.
  split; [|split; [|split]].
  - intros path. unfold request_url. apply endsWith_append.
    destruct (endsWith path "/") eqn:H.
    + rewrite append_empty_r. exact H.
    + apply endsWith_append. reflexivity.
  - intros port path Hp Hne. unfold request_url, serverFullPath. rewrite Hp.
    apply String.eqb_neq in Hne. rewrite Hne.
    rewrite <- !append_assoc_string. reflexivity.
  - intros Hp path. unfold request_url, serverFullPath.
    destruct Hp as [-> | ->]; reflexivity.
  - intros Hp Hb. unfold request_url, serverFullPath. rewrite Hp, Hb. reflexivity.
Qed.

(** Which callback [showLoading] selects: the three states of
    [loading && loading.show], as in [showError]. *)
Lemma showLoading_selection (l : slot ILoading.t) :
  trace (showLoading l) =
  match and_member ILoading.show l with
  | Provided f => [LoadingShow PerCall f]
  | NotSupplied =>
      match and_member ILoading.show (IHttpGlobalConfig.loading config) with
      | Provided g => [LoadingShow Global g]
      | _ => []
      end
  | ExplicitlyEmpty => []
  end.
Proof.
  unfold showLoading.
  destruct l as [| | [[| | f] h]]; simpl; try reflexivity;
    destruct (and_member ILoading.show (IHttpGlobalConfig.loading config));
    reflexivity.
Qed.

(** Which callback [hideLoading] selects: the global [hide] is reached
    through the state of [loading && loading.show], not of
    [loading && loading.hide]. *)
Lemma hideLoading_selection (l : slot ILoading.t) :
  trace (hideLoading l) =
  match and_member ILoading.hide l with
  | Provided f => [LoadingHide PerCall f]
  | _ =>
      if is_undefined (and_member ILoading.show l) then
        match and_member ILoading.hide (IHttpGlobalConfig.loading config) with
        | Provided g => [LoadingHide Global g]
        | _ => []
        end
      else []
  end.
Proof.
  unfold hideLoading.
  destruct l as [| | [[| | f] [| | h]]]; simpl; try reflexivity;
    destruct (and_member ILoading.hide (IHttpGlobalConfig.loading config));
    reflexivity.
Qed.

(** * Further properties of the dispatcher *)

(** ** The request configuration *)

Lemma or_timeout_nonzero (t : option Z) (otherwise : Z) :
  otherwise <> 0%Z -> or_timeout t otherwise <> 0%Z.
Proof.
  intros H. unfold or_timeout. destruct t as [z |]; [|exact H].
  destruct (Z.eqb z 0) eqn:E; [exact H|]. apply Z.eqb_neq. exact E.
Qed.

(** X1. The timeout handed to the transport is never [0]: a per-call
    timeout other than [0] is used as it is; otherwise a global timeout
    other than [0]; otherwise [5000].  A timeout of [0] is treated as
    missing at both levels. *)
Theorem timeout_resolution (method url : string) (data : option R)
  (options : IHttpOptions.t P) :
  let t := AxiosRequestConfig.timeout (httpOptions method url data options) in
  t <> 0%Z
  /\ (forall z, IHttpOptions.timeout options = Some z -> z <> 0%Z -> t = z)
  /\ (IHttpOptions.timeout options = None \/ IHttpOptions.timeout options = Some 0%Z ->
      (forall z, IHttpGlobalConfig.timeout config = Some z -> z <> 0%Z -> t = z)
      /\ (IHttpGlobalConfig.timeout config = None
          \/ IHttpGlobalConfig.timeout config = Some 0%Z -> t = 5000%Z)).
Proof.
  simpl. split; [|split].
  - apply or_timeout_nonzero, or_timeout_nonzero. discriminate.
  - intros z -> Hz. simpl. apply Z.eqb_neq in Hz. rewrite Hz. reflexivity.
  - intros Ho.
    assert (Hfall : forall x,
               or_timeout (IHttpOptions.timeout options) x = x).
    { intros x. destruct Ho as [-> | ->]; reflexivity. }
    rewrite Hfall. split.
    + intros z -> Hz. simpl. apply Z.eqb_neq in Hz. rewrite Hz. reflexivity.
    + intros [-> | ->]; reflexivity.
Qed.

(** ** The header providers, one by one *)

Lemma resolve_header_fails (method : string) (options : IHttpOptions.t P)
  (token : HeaderType.t T) (headers : list (string * string)) (e : thrown T) :
  applies method token = true ->
  provider_failure token = Some e ->
  trace (resolve_header method options token headers) =
    trace (handleError e (IHttpOptions.showError options)
             (IHttpOptions.skipServerErrorHandler options))
  /\ exists x, result (resolve_header method options token headers) = Threw x.
Proof.
  intros Ha Hf. rewrite resolve_header_eq, Ha. unfold provider_failure in Hf.
  destruct (handleError_throws e (IHttpOptions.showError options)
              (IHttpOptions.skipServerErrorHandler options)) as [x Hx].
  destruct (HeaderType.get token) as [s | [s | e' | s | e']]; try discriminate;
    injection Hf as ->; simpl; rewrite Hx; eauto.
Qed.

Lemma resolve_header_quiet (method : string) (options : IHttpOptions.t P)
  (token : HeaderType.t T) (headers : list (string * string)) :
  applies method token = false \/ provider_failure token = None ->
  resolve_header method options token headers =
  ([], Returned
         (if applies method token then
            match provider_value token with
            | Some value => set_header (HeaderType.key token) value headers
            | None => headers
            end
          else headers)).
Proof.
  rewrite resolve_header_eq. unfold provider_failure, provider_value.
  destruct (applies method token); [|reflexivity].
  intros [H | H]; [discriminate|].
  destruct (HeaderType.get token) as [s | [s | e | s | e]];
    try reflexivity; discriminate.
Qed.

Lemma provider_failure_dec (token : HeaderType.t T) :
  provider_failure token = None \/ exists e, provider_failure token = Some e.
Proof. destruct (provider_failure token); eauto. Qed.

Lemma settle_in_order_member (method : string) (options : IHttpOptions.t P)
  (tokens : list (HeaderType.t T)) (e0 : ev) :
  forall headers,
    In e0 (trace (settle_in_order method options tokens headers)) <->
    exists token x,
      In token tokens /\ applies method token = true
      /\ provider_failure token = Some x
      /\ In e0 (trace (handleError x (IHttpOptions.showError options)
                         (IHttpOptions.skipServerErrorHandler options))).
Proof.
  induction tokens as [| token rest IH]; intros headers; simpl.
  - split; [tauto|]. intros (t & x & [] & _).
  - destruct (applies method token) eqn:Ha;
      [destruct (provider_failure_dec token) as [Hf | [e Hf]]|].
    + rewrite resolve_header_quiet by auto.
      specialize (IH (if applies method token then
                        match provider_value token with
                        | Some value => set_header (HeaderType.key token) value headers
                        | None => headers
                        end
                      else headers)).
      destruct (settle_in_order method options rest _) as [tr o]. simpl in *.
      rewrite IH. split.
      * intros (t & x & ? & ? & ? & ?). exists t, x. auto.
      * intros (t & x & [<- | ?] & ? & Hx & ?); [congruence|]. exists t, x. auto.
    + destruct (resolve_header_fails method options token headers e Ha Hf)
        as [Ht [x Hx]].
      destruct (resolve_header method options token headers) as [tr o].
      simpl in Ht, Hx. subst tr o. simpl. rewrite in_app_iff, IH. split.
      * intros [H | (t & y & ? & ? & ? & ?)].
        -- exists token, e. auto.
        -- exists t, y. auto.
      * intros (t & y & [<- | ?] & ? & Hy & ?).
        -- left. congruence.
        -- right. exists t, y. auto.
    + rewrite resolve_header_quiet by auto.
      specialize (IH (if applies method token then
                        match provider_value token with
                        | Some value => set_header (HeaderType.key token) value headers
                        | None => headers
                        end
                      else headers)).
      destruct (settle_in_order method options rest _) as [tr o]. simpl in *.
      rewrite IH. split.
      * intros (t & x & ? & ? & ? & ?). exists t, x. auto.
      * intros (t & x & [<- | ?] & ? & Hx & ?); [congruence|]. exists t, x. auto.
Qed.

Lemma settle_in_order_rejects (method : string) (options : IHttpOptions.t P)
  (tokens : list (HeaderType.t T)) (token : HeaderType.t T) (e : thrown T) :
  In token tokens -> applies method token = true -> provider_failure token = Some e ->
  forall headers,
    exists x, result (settle_in_order method options tokens headers) = Threw x.
Proof.
  intros Hin Ha Hf. induction tokens as [| t rest IH]; [destruct Hin|].
  intros headers. simpl.
  destruct (resolve_header method options t headers) as [tr [h1 | x]] eqn:Ht.
  - destruct Hin as [-> | Hin].
    + destruct (resolve_header_fails method options token headers e Ha Hf)
        as [_ [x Hx]].
      rewrite Ht in Hx. discriminate.
    + destruct (IH Hin h1) as [x Hx].
      destruct (settle_in_order method options rest h1) as [tr' o].
      simpl in Hx. subst o. simpl. eauto.
  - simpl. eauto.
Qed.

Lemma settle_in_order_written (method : string) (options : IHttpOptions.t P)
  (tokens : list (HeaderType.t T)) :
  forall headers headers',
    result (settle_in_order method options tokens headers) = Returned headers' ->
    headers' = written_headers method tokens headers.
Proof.
  induction tokens as [| token rest IH]; intros headers headers'; simpl.
  - intros H. injection H as <-. reflexivity.
  - destruct (applies method token) eqn:Ha;
      [destruct (provider_failure_dec token) as [Hf | [e Hf]]|].
    + rewrite resolve_header_quiet by auto. rewrite Ha.
      intros H. apply IH.
      destruct (settle_in_order method options rest _) as [tr o]. exact H.
    + destruct (resolve_header_fails method options token headers e Ha Hf)
        as [_ [x Hx]].
      destruct (resolve_header method options token headers) as [tr o].
      simpl in Hx. subst o. simpl. discriminate.
    + rewrite resolve_header_quiet by auto. rewrite Ha.
      intros H. apply IH.
      destruct (settle_in_order method options rest _) as [tr o]. exact H.
Qed.

Lemma resolve_headers_member (method : string) (options : IHttpOptions.t P)
  (tokens : list (HeaderType.t T)) (e0 : ev) (headers : list (string * string)) :
  In e0 (trace (resolve_headers method options tokens headers)) <->
  exists token x,
    In token tokens /\ applies method token = true
    /\ provider_failure token = Some x
    /\ In e0 (trace (handleError x (IHttpOptions.showError options)
                       (IHttpOptions.skipServerErrorHandler options))).
Proof.
  unfold resolve_headers. rewrite settle_in_order_member. split.
  - intros (token & x & Hin & H). apply (proj1 (In_schedule _ _)) in Hin.
    exists token, x. auto.
  - intros (token & x & Hin & H). apply (proj2 (In_schedule _ _)) in Hin.
    exists token, x. auto.
Qed.

Lemma resolve_headers_rejects (method : string) (options : IHttpOptions.t P)
  (tokens : list (HeaderType.t T)) (token : HeaderType.t T) (e : thrown T) :
  In token tokens -> applies method token = true -> provider_failure token = Some e ->
  forall headers,
    exists x, result (resolve_headers method options tokens headers) = Threw x.
Proof.
  intros Hin Ha Hf headers. apply (proj2 (In_schedule _ _)) in Hin.
  exact (settle_in_order_rejects method options _ token e Hin Ha Hf headers).
Qed.

Lemma resolve_headers_written (method : string) (options : IHttpOptions.t P)
  (tokens : list (HeaderType.t T)) (headers headers' : list (string * string)) :
  result (resolve_headers method options tokens headers) = Returned headers' ->
  headers' = written_headers method (schedule tokens) headers.
Proof. apply settle_in_order_written. Qed.

(** ** Reading and writing headers *)

Lemma header_lookup_set_same (key value : string) (headers : list (string * string)) :
  header_lookup key (set_header key value headers) = Some value.
Proof.
  induction headers as [| [k v] rest IH]; simpl.
  - rewrite String.eqb_refl. reflexivity.
  - destruct (String.eqb k key) eqn:E; simpl.
    + rewrite String.eqb_refl. reflexivity.
    + rewrite E. exact IH.
Qed.

Lemma header_lookup_set_other (key key' value : string)
  (headers : list (string * string)) :
  key' <> key ->
  header_lookup key' (set_header key value headers) = header_lookup key' headers.
Proof.
  intros Hne. assert (Hk : String.eqb key key' = false).
  { apply String.eqb_neq. congruence. }
  induction headers as [| [k v] rest IH]; simpl.
  - rewrite Hk. reflexivity.
  - destruct (String.eqb k key) eqn:E; simpl.
    + apply String.eqb_eq in E. subst k. rewrite Hk. reflexivity.
    + destruct (String.eqb k key'); [reflexivity | exact IH].
Qed.

Lemma written_headers_untouched (method key : string) (tokens : list (HeaderType.t T)) :
  (forall token, In token tokens -> applies method token = true ->
                 HeaderType.key token <> key) ->
  forall headers,
    header_lookup key (written_headers method tokens headers)
    = header_lookup key headers.
Proof.
  induction tokens as [| t rest IH]; intros H headers; [reflexivity|].
  simpl. rewrite IH by (intros; apply H; simpl; auto).
  destruct (applies method t) eqn:Ha; [|reflexivity].
  destruct (provider_value t); [|reflexivity].
  apply header_lookup_set_other. intros E. apply (H t); simpl; auto.
Qed.

Lemma written_headers_kept (method key value : string)
  (tokens : list (HeaderType.t T)) :
  (forall t, In t tokens -> applies method t = true -> HeaderType.key t = key ->
             provider_value t = Some value) ->
  forall headers,
    header_lookup key headers = Some value ->
    header_lookup key (written_headers method tokens headers) = Some value.
Proof.
  induction tokens as [| t rest IH]; intros H headers Hl; [exact Hl|].
  simpl. apply IH; [intros; apply H; simpl; auto|].
  destruct (applies method t) eqn:Ha; [|exact Hl].
  destruct (provider_value t) as [v |] eqn:Hv; [|exact Hl].
  destruct (String.eqb (HeaderType.key t) key) eqn:E.
  - apply String.eqb_eq in E.
    assert (Hv' : provider_value t = Some value) by (apply H; simpl; auto).
    rewrite Hv in Hv'. injection Hv' as ->. rewrite E.
    apply header_lookup_set_same.
  - apply String.eqb_neq in E. rewrite header_lookup_set_other by congruence.
    exact Hl.
Qed.

Lemma written_headers_provided (method value : string)
  (tokens : list (HeaderType.t T)) (token : HeaderType.t T) :
  In token tokens -> applies method token = true ->
  provider_value token = Some value ->
  (forall t, In t tokens -> applies method t = true ->
             HeaderType.key t = HeaderType.key token ->
             provider_value t = Some value) ->
  forall headers,
    header_lookup (HeaderType.key token) (written_headers method tokens headers)
    = Some value.
Proof.
  intros Hin Ha Hv. induction tokens as [| t rest IH]; [destruct Hin|].
  intros H headers. simpl. destruct Hin as [-> | Hin].
  - rewrite Ha, Hv. apply written_headers_kept.
    + intros; apply H; simpl; auto.
    + apply header_lookup_set_same.
  - apply IH; [exact Hin|]. intros; apply H; simpl; auto.
Qed.

(** ** Which request a call dispatches *)

Lemma header_phase_written (method : string) (options : IHttpOptions.t P)
  (headers headers' : list (string * string)) :
  result (header_phase method options headers) = Returned headers' ->
  headers' = written_headers method (schedule providers) headers.
Proof.
  unfold header_phase, providers.
  destruct (IHttpGlobalConfig.headers config) as [tokens |].
  - apply resolve_headers_written.
  - simpl. intros H. injection H as <-. reflexivity.
Qed.

Lemma httpBase_request (method url : string) (data : option R)
  (options : IHttpOptions.t P) (c : AxiosRequestConfig.t R P) :
  In (Request c) (trace (snd (httpBase method url data options))) ->
  c = with_headers (httpOptions method url data (normalize_skip options))
        (written_headers method (schedule providers) default_headers).
Proof.
  rewrite httpBase_eq.
  set (options' := normalize_skip options).
  set (c0 := httpOptions method url data options').
  assert (Hhdr : ~ In (Request c)
                   (trace (header_phase method options'
                             (AxiosRequestConfig.headers c0)))).
  { intros H. apply header_phase_events in H.
    destruct H as (token & x & _ & _ & H). apply handleError_no_loading in H.
    discriminate. }
  pose proof (header_phase_written method options'
                (AxiosRequestConfig.headers c0)) as Hw.
  destruct (header_phase method options' (AxiosRequestConfig.headers c0))
    as [tr [headers | x]]; simpl in Hhdr |- *.
  - specialize (Hw headers eq_refl). intros [H | H]; [discriminate|].
    apply in_app_iff in H. destruct H as [H | H]; [tauto|].
    revert H. rewrite dispatch_eq.
    assert (Hgoal : forall mid,
               (forall e, In e mid -> is_loading_or_request e = false) ->
               In (Request c)
                 (trace (showLoading (IHttpOptions.loading options'))
                    ++ Request (with_headers c0 headers)
                    :: mid ++ trace (hideLoading (IHttpOptions.loading options'))) ->
               c = with_headers c0
                     (written_headers method (schedule providers) default_headers)).
    { intros mid Hmid H. apply in_app_iff in H. destruct H as [H | [H | H]].
      - apply showLoading_events in H.
        destruct H as [(f & _ & H) | (g & _ & _ & H)]; discriminate.
      - injection H as <-. rewrite Hw. reflexivity.
      - apply in_app_iff in H. destruct H as [H | H].
        + apply Hmid in H. discriminate.
        + apply hideLoading_events in H. destruct H as (o & f & H). discriminate. }
    destruct (result (unwrap (Axios_request (with_headers c0 headers))))
      as [d | err]; simpl.
    + apply (Hgoal []). simpl. tauto.
    + apply Hgoal. apply handleError_no_loading.
  - intros [H | H]; [discriminate | tauto].
Qed.

Lemma showLoading_no_request (l : slot ILoading.t) :
  count is_request (trace (showLoading l)) = 0.
Proof.
  apply count_none. intros e H. apply showLoading_events in H.
  destruct H as [(f & _ & ->) | (g & _ & _ & ->)]; reflexivity.
Qed.

Lemma hideLoading_no_request (l : slot ILoading.t) :
  count is_request (trace (hideLoading l)) = 0.
Proof.
  apply count_none. intros e H. apply hideLoading_events in H.
  destruct H as (o & f & ->). reflexivity.
Qed.

(** X2. A call dispatches at most one request, and a request it dispatches
    has the method of the call, the URL assembled from the path, credentials
    included, the query parameters of the options, and a body on [post]
    only: whatever [data] is, no other method sends it. *)
Theorem request_configuration (method url : string) (data : option R)
  (options : IHttpOptions.t P) :
  count is_request (trace (snd (httpBase method url data options))) <= 1
  /\ forall c,
      In (Request c) (trace (snd (httpBase method url data options))) ->
      AxiosRequestConfig.method c = method
      /\ AxiosRequestConfig.url c = request_url url
      /\ AxiosRequestConfig.withCredentials c = true
      /\ AxiosRequestConfig.params c = IHttpOptions.params options
      /\ AxiosRequestConfig.data c = (if String.eqb method "post" then data else None)
      /\ (method <> "post" -> AxiosRequestConfig.data c = None).
Proof.
  split.
  - destruct (httpBase_trace_shape method url data options)
      as (b & pre & Hpre & [-> | (c & mid & Hmid & ->)]).
    + rewrite count_none; [lia|]. intros e [<- | H]; [reflexivity|].
      apply Hpre, not_loading_or_request in H. tauto.
    + change (AssignSkip b :: pre ++ ?x) with ((AssignSkip b :: pre) ++ x).
      change (Request c :: mid) with ([@Request T R P c] ++ mid).
      rewrite !count_app, showLoading_no_request, hideLoading_no_request.
      rewrite (count_none is_request (AssignSkip b :: pre)).
      * rewrite (count_none is_request mid); [simpl; lia|].
        intros e H. apply Hmid, not_loading_or_request in H. tauto.
      * intros e [<- | H]; [reflexivity|].
        apply Hpre, not_loading_or_request in H. tauto.
  - intros c H. apply httpBase_request in H. subst c. simpl.
    repeat split; try reflexivity.
    intros Hm. apply String.eqb_neq in Hm. rewrite Hm. reflexivity.
Qed.

(** A call in which a provider taking part fails is the write to the
    options object followed by what the providers cause, and rejects. *)
Lemma httpBase_aborted (method url : string) (data : option R)
  (options : IHttpOptions.t P) (token : HeaderType.t T) (e : thrown T) :
  In token providers ->
  applies method token = true ->
  provider_failure token = Some e ->
  exists b tr x,
    snd (httpBase method url data options) = (AssignSkip b :: tr, Threw x)
    /\ forall e0, In e0 tr -> is_loading_or_request e0 = false.
Proof.
  intros Hin Ha Hf. rewrite httpBase_eq.
  set (options' := normalize_skip options).
  set (c0 := httpOptions method url data options').
  assert (Hx : exists x,
             result (header_phase method options' (AxiosRequestConfig.headers c0))
             = Threw x).
  { unfold header_phase. unfold providers in Hin.
    destruct (IHttpGlobalConfig.headers config) as [tokens |]; [|destruct Hin].
    eapply resolve_headers_rejects; eauto. }
  assert (Hq : forall e0,
             In e0 (trace (header_phase method options'
                             (AxiosRequestConfig.headers c0))) ->
             is_loading_or_request e0 = false).
  { intros e0 H. apply header_phase_events in H.
    destruct H as (t & x & _ & _ & H). eapply handleError_no_loading; eauto. }
  destruct (header_phase method options' (AxiosRequestConfig.headers c0))
    as [tr o]. simpl in Hx, Hq. destruct Hx as [x ->]. simpl. eauto 6.
Qed.

(** X3. When a header provider that takes part in the request fails, the
    call rejects without dispatching: no request is sent and the loading
    indicator is neither shown nor hidden. *)
Theorem provider_failure_aborts (method url : string) (data : option R)
  (options : IHttpOptions.t P) (token : HeaderType.t T) (e : thrown T) :
  In token providers ->
  applies method token = true ->
  provider_failure token = Some e ->
  (exists x, result (snd (httpBase method url data options)) = Threw x)
  /\ count is_request (trace (snd (httpBase method url data options))) = 0
  /\ count is_show (trace (snd (httpBase method url data options))) = 0
  /\ count is_hide (trace (snd (httpBase method url data options))) = 0.
Proof.
  intros Hin Ha Hf.
  destruct (httpBase_aborted method url data options token e Hin Ha Hf)
    as (b & tr & x & -> & Hq).
  simpl. split; [eauto|].
  repeat split; apply count_none; intros e0 [<- | H]; try reflexivity;
    apply Hq, not_loading_or_request in H; tauto.
Qed.

(** X4. What the header providers cause is the handling of the failures
    of the providers that take part and fail, of each of them and of them
    only: an event occurs while the headers are resolved exactly when
    [handleError] performs it for the failure of such a provider.  A
    provider that fails does not keep the failure of another from being
    handled. *)
Theorem provider_failures_handled (method : string) (options : IHttpOptions.t P)
  (headers : list (string * string)) (e0 : ev) :
  In e0 (trace (header_phase method options headers)) <->
  exists token x,
    In token providers /\ applies method token = true
    /\ provider_failure token = Some x
    /\ In e0 (trace (handleError x (IHttpOptions.showError options)
                       (IHttpOptions.skipServerErrorHandler options))).
Proof.
  unfold header_phase, providers.
  destruct (IHttpGlobalConfig.headers config) as [tokens |].
  - apply resolve_headers_member.
  - simpl. split; [tauto|]. intros (t & x & [] & _).
Qed.

(** X5. A header that no provider taking part in the request is keyed
    to reaches the transport as the request configuration first had it:
    ['Content-Type'] stays ['application/json'], and the key of a provider
    that is [postOnly] is missing from a [get] unless another provider sets
    it. *)
Theorem header_left_alone (method url : string) (data : option R)
  (options : IHttpOptions.t P) (key : string) (c : AxiosRequestConfig.t R P) :
  (forall token, In token providers -> applies method token = true ->
                 HeaderType.key token <> key) ->
  In (Request c) (trace (snd (httpBase method url data options))) ->
  header_lookup key (AxiosRequestConfig.headers c) = header_lookup key default_headers.
Proof.
  intros H Hin. apply httpBase_request in Hin. subst c. simpl.
  apply written_headers_untouched. intros token Ht. apply H.
  apply In_schedule. exact Ht.
Qed.

(** X6. The header of a provider that takes part in the request and
    yields a value reaches the transport with that value, provided every
    provider taking part under the same key yields the same value. *)
Theorem header_provided (method url : string) (data : option R)
  (options : IHttpOptions.t P) (token : HeaderType.t T) (value : string)
  (c : AxiosRequestConfig.t R P) :
  In token providers ->
  applies method token = true ->
  provider_value token = Some value ->
  (forall t, In t providers -> applies method t = true ->
             HeaderType.key t = HeaderType.key token ->
             provider_value t = Some value) ->
  In (Request c) (trace (snd (httpBase method url data options))) ->
  header_lookup (HeaderType.key token) (AxiosRequestConfig.headers c) = Some value.
Proof.
  intros Hin Ha Hv H Hreq. apply httpBase_request in Hreq. subst c. simpl.
  apply written_headers_provided; try assumption.
  - apply In_schedule. exact Hin.
  - intros t Ht. apply H. apply In_schedule. exact Ht.
Qed.

(** ** When a call resolves *)

Lemma unwrap_returned (res : AxiosResult T) (d : option T) :
  result (unwrap res) = Returned d <->
  exists payload,
    res = Resolves (Some payload) /\ ZyWebRes.code payload = "OK"
    /\ d = ZyWebRes.data payload.
Proof.
  split.
  - destruct res as [[payload |] | err]; simpl; try discriminate.
    destruct (String.eqb (ZyWebRes.code payload) "OK") eqn:Hc; simpl;
      [|discriminate].
    intros H. injection H as <-. apply String.eqb_eq in Hc. eauto.
  - intros (payload & -> & Hc & ->). rewrite (unwrap_envelope_ok _ Hc). reflexivity.
Qed.

(** X7. A call resolves exactly when no header provider failed and the
    transport answered with an envelope whose code is ["OK"]; it then
    resolves with the [data] of that envelope.  In particular a failure of
    the [try] block never resolves the call through the [catch] clause. *)
Theorem resolves_iff (method url : string) (data : option R)
  (options : IHttpOptions.t P) (d : option T) :
  let options' := normalize_skip options in
  let c := httpOptions method url data options' in
  result (snd (httpBase method url data options)) = Returned d <->
  exists headers payload,
    result (header_phase method options' (AxiosRequestConfig.headers c))
    = Returned headers
    /\ Axios_request (with_headers c headers) = Resolves (Some payload)
    /\ ZyWebRes.code payload = "OK"
    /\ d = ZyWebRes.data payload.
Proof.
  intros options' c. rewrite httpBase_eq. fold options'. fold c.
  destruct (header_phase method options' (AxiosRequestConfig.headers c))
    as [tr [headers | x]]; unfold result; cbn [snd].
  - rewrite dispatch_eq. unfold result; cbn [snd].
    pose proof (unwrap_returned (Axios_request (with_headers c headers))) as Hu.
    unfold result in Hu.
    destruct (snd (unwrap (Axios_request (with_headers c headers)))) as [d' | err].
    + cbn [snd]. split.
      * intros H. injection H as <-.
        destruct (proj1 (Hu d') eq_refl) as (payload & Ha & Hc & Hd).
        exists headers, payload. auto.
      * intros (h & payload & Hh & Ha & Hc & ->). injection Hh as <-.
        apply Hu. exists payload. auto.
    + cbn [snd].
      destruct (handleError_throws err (IHttpOptions.showError options')
                  (IHttpOptions.skipServerErrorHandler options')) as [e He].
      unfold result in He. rewrite He. split; [discriminate|].
      intros (h & payload & Hh & Ha & Hc & ->). injection Hh as <-.
      assert (H : @Threw T (option T) err = Returned (ZyWebRes.data payload)).
      { apply Hu. exists payload. auto. }
      discriminate.
  - split; [discriminate|]. intros (h & payload & Hh & _). discriminate.
Qed.

(** X8. A call that resolves has sent exactly one request, displayed no
    error and not invoked the global server-error handler. *)
Theorem resolved_call_is_quiet (method url : string) (data : option R)
  (options : IHttpOptions.t P) (d : option T) :
  result (snd (httpBase method url data options)) = Returned d ->
  count is_request (trace (snd (httpBase method url data options))) = 1
  /\ count is_display (trace (snd (httpBase method url data options))) = 0
  /\ count is_handler (trace (snd (httpBase method url data options))) = 0.
Proof.
  rewrite httpBase_eq.
  set (options' := normalize_skip options).
  set (c := httpOptions method url data options').
  pose proof (header_phase_returned method options' (AxiosRequestConfig.headers c))
    as Hq.
  destruct (header_phase method options' (AxiosRequestConfig.headers c))
    as [tr [headers | x]]; simpl; [|discriminate].
  specialize (Hq headers eq_refl). simpl in Hq. subst tr. simpl.
  rewrite dispatch_eq.
  destruct (result (unwrap (Axios_request (with_headers c headers))))
    as [d' | err].
  - simpl. intros _.
    assert (Hshow : forall p, (forall o f, p (@LoadingShow T R P o f) = false) ->
                              count p (trace (showLoading (IHttpOptions.loading options')))
                              = 0).
    { intros p Hp. apply count_none. intros e H. apply showLoading_events in H.
      destruct H as [(f & _ & ->) | (g & _ & _ & ->)]; apply Hp. }
    assert (Hhide : forall p, (forall o f, p (@LoadingHide T R P o f) = false) ->
                              count p (trace (hideLoading (IHttpOptions.loading options')))
                              = 0).
    { intros p Hp. apply count_none. intros e H. apply hideLoading_events in H.
      destruct H as (o & f & ->). apply Hp. }
    change (AssignSkip ?b :: ?x ++ ?y) with ([@AssignSkip T R P b] ++ x ++ y).
    change (Request ?r :: ?x) with ([@Request T R P r] ++ x).
    rewrite !count_app, !Hshow, !Hhide by reflexivity.
    repeat split; reflexivity.
  - unfold result. cbn [snd].
    destruct (handleError_throws err (IHttpOptions.showError options')
                (IHttpOptions.skipServerErrorHandler options')) as [e He].
    unfold result in He. rewrite He. discriminate.
Qed.

(** ** Which callbacks a call can invoke *)

Lemma showError_display_event (msg : string) (se : slot callback)
  (o : origin) (f : callback) (m : string) :
  In (ShowError o f m) (trace (showError msg se)) ->
  m = msg
  /\ ((se = Provided f /\ o = PerCall)
      \/ (se = NotSupplied /\ o = Global
          /\ IHttpGlobalConfig.showError config = Some f)).
Proof.
  unfold showError. destruct se as [| | f']; simpl.
  - destruct (IHttpGlobalConfig.showError config) as [g |]; simpl; [|tauto].
    intros [H | []]. injection H as <- <- <-. auto.
  - tauto.
  - intros [H | []]. injection H as <- <- <-. auto.
Qed.

Lemma handleError_display_event (err : thrown T) (se : slot callback)
  (skip : option bool) (o : origin) (f : callback) (m : string) :
  In (ShowError o f m) (trace (handleError err se skip)) ->
  (se = Provided f /\ o = PerCall)
  \/ (se = NotSupplied /\ o = Global /\ IHttpGlobalConfig.showError config = Some f).
Proof.
  destruct err as [ex | x |].
  - rewrite handleError_server. simpl. rewrite in_app_iff. intros [H | H].
    + apply showError_display_event in H. tauto.
    + apply handler_calls_events in H. destruct H as (_ & h & _ & H). discriminate.
  - rewrite handleError_error. simpl. intros H.
    apply showError_display_event in H. tauto.
  - simpl. tauto.
Qed.

Lemma handleError_handler_event (err : thrown T) (se : slot callback)
  (skip : option bool) (h : callback) (ex : ServerException.t T) :
  In (HandleServerError h ex) (trace (handleError err se skip)) ->
  truthy_flag skip = false /\ IHttpGlobalConfig.handleServerError config = Some h.
Proof.
  destruct err as [ex' | x |].
  - rewrite handleError_server. simpl. rewrite in_app_iff. intros [H | H].
    + apply showError_only_displays in H. destruct H as (o & f & H). discriminate.
    + apply handler_calls_events in H. destruct H as (Hs & h' & Hh & H).
      injection H as <- _. auto.
  - rewrite handleError_error. simpl. intros H.
    apply showError_only_displays in H. destruct H as (o & f & H). discriminate.
  - simpl. tauto.
Qed.

(** Where an event of a call comes from. *)
Lemma httpBase_events (method url : string) (data : option R)
  (options : IHttpOptions.t P) (e : ev) :
  In e (trace (snd (httpBase method url data options))) ->
  (exists b, e = AssignSkip b)
  \/ (exists err,
         In e (trace (handleError err (IHttpOptions.showError options)
                        (IHttpOptions.skipServerErrorHandler
                           (normalize_skip options)))))
  \/ In e (trace (showLoading (IHttpOptions.loading options)))
  \/ (exists c, e = Request c)
  \/ In e (trace (hideLoading (IHttpOptions.loading options))).
Proof.
  rewrite httpBase_eq.
  set (options' := normalize_skip options).
  set (c := httpOptions method url data options').
  assert (Hhdr : In e (trace (header_phase method options'
                                (AxiosRequestConfig.headers c))) ->
                 exists err,
                   In e (trace (handleError err (IHttpOptions.showError options)
                                  (IHttpOptions.skipServerErrorHandler options')))).
  { intros H. apply header_phase_events in H.
    destruct H as (t & x & _ & _ & H). eauto. }
  destruct (header_phase method options' (AxiosRequestConfig.headers c))
    as [tr [headers | x]]; simpl in Hhdr |- *.
  - intros [<- | H]; [eauto|]. apply in_app_iff in H. destruct H as [H | H]; [auto|].
    revert H. rewrite dispatch_eq.
    destruct (result (unwrap (Axios_request (with_headers c headers))))
      as [d | err]; simpl; rewrite in_app_iff; simpl.
    + intros [H | [<- | H]]; eauto 6.
    + rewrite in_app_iff. intros [H | [<- | [H | H]]]; eauto 6.
  - intros [<- | H]; eauto.
Qed.

(** X9. Whenever a call invokes the global server-error handler, the
    function invoked is the configured one and [skipServerErrorHandler] is
    not set: with the flag set the handler is not invoked at any point of
    the call, the failures of header providers included. *)
Theorem handler_respects_skip (method url : string) (data : option R)
  (options : IHttpOptions.t P) (h : callback) (ex : ServerException.t T) :
  In (HandleServerError h ex) (trace (snd (httpBase method url data options))) ->
  IHttpOptions.skipServerErrorHandler options <> Some true
  /\ IHttpGlobalConfig.handleServerError config = Some h.
Proof.
  intros H. apply httpBase_events in H.
  destruct H as [[b H] | [[err H] | [H | [[c H] | H]]]]; try discriminate.
  - apply handleError_handler_event in H. destruct H as [Hs Hh]. split; [|exact Hh].
    intros E. unfold normalize_skip in Hs. simpl in Hs. rewrite E in Hs.
    discriminate.
  - apply showLoading_events in H.
    destruct H as [(f & _ & H) | (g & _ & _ & H)]; discriminate.
  - apply hideLoading_events in H. destruct H as (o & f & H). discriminate.
Qed.

(** X10. Every error display of a call goes to one callback: the per-call
    [showError] when it is a function, the global one when the per-call
    option is not supplied.  With a per-call [showError] that is supplied
    but falsy the call displays nothing, whatever fails. *)
Theorem display_selection (method url : string) (data : option R)
  (options : IHttpOptions.t P) (o : origin) (f : callback) (m : string) :
  In (ShowError o f m) (trace (snd (httpBase method url data options))) ->
  (IHttpOptions.showError options = Provided f /\ o = PerCall)
  \/ (IHttpOptions.showError options = NotSupplied /\ o = Global
      /\ IHttpGlobalConfig.showError config = Some f).
Proof.
  intros H. apply httpBase_events in H.
  destruct H as [[b H] | [[err H] | [H | [[c H] | H]]]]; try discriminate.
  - apply handleError_display_event in H. exact H.
  - apply showLoading_events in H.
    destruct H as [(f' & _ & H) | (g & _ & _ & H)]; discriminate.
  - apply hideLoading_events in H. destruct H as (o' & f' & H). discriminate.
Qed.

(** X11. A per-call [loading] that is supplied but falsy turns the
    indicator off for the call: neither the global [show] nor the global
    [hide] is invoked. *)
Theorem empty_loading_turns_indicator_off (method url : string) (data : option R)
  (options : IHttpOptions.t P) :
  IHttpOptions.loading options = ExplicitlyEmpty ->
  count is_show (trace (snd (httpBase method url data options))) = 0
  /\ count is_hide (trace (snd (httpBase method url data options))) = 0.
Proof.
  intros Hl.
  assert (Hnone : forall e, In e (trace (snd (httpBase method url data options))) ->
                            is_show e = false /\ is_hide e = false).
  { intros e H. apply httpBase_events in H. rewrite Hl in H.
    destruct H as [[b ->] | [[err H] | [H | [[c ->] | H]]]]; auto.
    - apply handleError_no_loading, not_loading_or_request in H. tauto.
    - destruct H.
    - destruct H. }
  split; apply count_none; intros e H; apply Hnone in H; tauto.
Qed.

(** ** Failures that are not classified *)

(** X12. A response whose body is [null] or [undefined] cannot be
    destructured: the call rejects with a [ServerException] whose code is
    [UNKNOWN_ERROR] and whose message is the unknown-error one; that message
    goes to the display callback the options select; the global server-error
    handler is not invoked; and the indicator is still hidden, by the
    per-call [hide] when there is one, by the global [hide] when the options
    give no indicator. *)
Theorem empty_body_rejection (c : AxiosRequestConfig.t R P)
  (options : IHttpOptions.t P) :
  Axios_request c = Resolves None ->
  result (dispatch c options) =
  Threw (ExnServer (ServerException.mk (ZyWebRes.mk "UNKNOWN_ERROR" "未知错误" None)))
  /\ filter (fun e => is_display e || is_handler e) (trace (dispatch c options)) =
     match IHttpOptions.showError options with
     | Provided f => [ShowError PerCall f "未知错误"]
     | NotSupplied =>
         match IHttpGlobalConfig.showError config with
         | Some g => [ShowError Global g "未知错误"]
         | None => []
         end
     | ExplicitlyEmpty => []
     end
  /\ (forall h,
         and_member ILoading.hide (IHttpOptions.loading options) = Provided h ->
         filter is_hide (trace (dispatch c options)) = [LoadingHide PerCall h])
  /\ (IHttpOptions.loading options = NotSupplied ->
      forall g,
        and_member ILoading.hide (IHttpGlobalConfig.loading config) = Provided g ->
        filter is_hide (trace (dispatch c options)) = [LoadingHide Global g]).
Proof.
  intros Ha.
  assert (Hrun : dispatch c options =
                 (trace (showLoading (IHttpOptions.loading options))
                    ++ Request c
                    :: trace (showError "未知错误" (IHttpOptions.showError options))
                    ++ trace (hideLoading (IHttpOptions.loading options)),
                  Threw (ExnServer
                           (ServerException.mk
                              (ZyWebRes.mk "UNKNOWN_ERROR" "未知错误" None))))).
  { rewrite dispatch_eq, Ha.
    change (result (unwrap (Resolves None)))
      with (@Threw T (option T)
              (ExnError (TypeError "Cannot destructure property 'code' of 'payload'"))).
    cbv beta iota. rewrite handleError_error. reflexivity. }
  assert (Hnh : forall l, filter is_hide (trace (showLoading l)) = []).
  { intros l. apply filter_none. intros e H. apply showLoading_events in H.
    destruct H as [(f & _ & ->) | (g & _ & _ & ->)]; reflexivity. }
  assert (Hne : forall m se, filter is_hide (trace (showError m se)) = []).
  { intros m se. apply filter_none. intros e H. apply showError_only_displays in H.
    destruct H as (o & f & ->). reflexivity. }
  rewrite Hrun, !trace_pair, result_pair.
  change (Request c :: ?x) with ([@Request T R P c] ++ x).
  split; [reflexivity|]. split; [|split].
  - rewrite !filter_app, showLoading_no_display_or_handler,
      hideLoading_no_display_or_handler, showError_eq.
    simpl. rewrite app_nil_r.
    destruct (IHttpOptions.showError options); simpl; try reflexivity.
    destruct (IHttpGlobalConfig.showError config); reflexivity.
  - intros h Hh. rewrite !filter_app, Hnh, Hne. simpl.
    unfold hideLoading. rewrite Hh. reflexivity.
  - intros Hl g Hg. rewrite !filter_app, Hnh, Hne. simpl.
    unfold hideLoading. rewrite Hl. simpl. rewrite Hg. reflexivity.
Qed.

Lemma status_family_other (status : Z) :
  ~ (400 <= status <= 599)%Z ->
  status_family status <> 5%Z /\ status_family status <> 4%Z.
Proof.
  intros H. unfold status_family. Z.quot_rem_to_equations. lia.
Qed.

(** X13. With an HTTP status outside 400..599 the failure is rejected with
    a [ServerException] whose code is [UNKNOWN_ERROR] and whose message is
    the unknown-error one: once a status is present the error's [code] and
    [message] are not looked at, so a timeout or a connectivity marker on
    such an error is ignored. *)
Theorem other_status_rejection (e : JsError.t) (r : AxiosResponse.t) (status : Z) :
  JsError.response e = Some r ->
  AxiosResponse.status r = Some status ->
  ~ (400 <= status <= 599)%Z ->
  (forall se skip,
      result (handleError (ExnError e) se skip) =
      Threw (ExnServer
               (ServerException.mk (ZyWebRes.mk "UNKNOWN_ERROR" "未知错误" None))))
  /\ (forall c options,
         Axios_request c = Rejects (ExnError e) ->
         result (dispatch c options) =
         Threw (ExnServer
                  (ServerException.mk (ZyWebRes.mk "UNKNOWN_ERROR" "未知错误" None)))).
Proof.
  intros Hr Hs Hrange.
  assert (Hc : classify e = ("UNKNOWN_ERROR", "未知错误")).
  { unfold classify. rewrite Hr, Hs.
    destruct (status_family_other status Hrange) as [H5 H4].
    apply Z.eqb_neq in H5. apply Z.eqb_neq in H4. rewrite H5, H4. reflexivity. }
  destruct (rejected_as_classify _ _ _ Hc) as [Hh Hd]. split.
  - intros se skip. rewrite Hh. reflexivity.
  - exact Hd.
Qed.

(** X14. A path and the same path followed by ['/'] are requested at the
    same URL. *)
Theorem trailing_slash_immaterial (path : string) :
  endsWith path "/" = false ->
  request_url (path ++ "/")%string = request_url path.
Proof.
  intros H. unfold request_url. rewrite H.
  rewrite (endsWith_append path "/" "/" eq_refl), append_empty_r. reflexivity.
Qed.

(** ** More on the whole call *)

(** X15. A [ServerException] that a header provider fails with is treated
    as a server error although no request is sent: when the handler is
    configured and [skipServerErrorHandler] is not set, the handler is
    invoked with that exception. *)
Theorem provider_server_exception_handled (method url : string) (data : option R)
  (options : IHttpOptions.t P) (token : HeaderType.t T) (ex : ServerException.t T)
  (h : callback) :
  In token providers ->
  applies method token = true ->
  provider_failure token = Some (ExnServer ex) ->
  IHttpGlobalConfig.handleServerError config = Some h ->
  IHttpOptions.skipServerErrorHandler options <> Some true ->
  In (HandleServerError h ex) (trace (snd (httpBase method url data options)))
  /\ count is_request (trace (snd (httpBase method url data options))) = 0.
Proof.
  intros Hin Ha Hf Hh Hs. split.
  - rewrite httpBase_eq.
    set (options' := normalize_skip options).
    set (c := httpOptions method url data options').
    assert (Hev : In (HandleServerError h ex)
                    (trace (header_phase method options'
                              (AxiosRequestConfig.headers c)))).
    { unfold header_phase. unfold providers in Hin.
      destruct (IHttpGlobalConfig.headers config) as [tokens |]; [|destruct Hin].
      apply resolve_headers_member. exists token, (ExnServer ex).
      repeat split; try assumption.
      rewrite handleError_server. simpl. apply in_or_app. right.
      unfold handler_calls. rewrite Hh.
      destruct (IHttpOptions.skipServerErrorHandler options) as [[|] |];
        simpl; auto; congruence. }
    destruct (header_phase method options' (AxiosRequestConfig.headers c))
      as [tr [headers | x]]; simpl in Hev |- *.
    + right. apply in_or_app. auto.
    + auto.
  - destruct (httpBase_aborted method url data options token (ExnServer ex)
                Hin Ha Hf) as (b & tr & x & -> & Hq).
    simpl. apply count_none. intros e0 [<- | H]; [reflexivity|].
    apply Hq, not_loading_or_request in H. tauto.
Qed.

Lemma normalize_skip_idempotent (options : IHttpOptions.t P) :
  normalize_skip (normalize_skip options) = normalize_skip options.
Proof. destruct options as [t p se l [[|] |]]; reflexivity. Qed.

(** X16. The options object a call leaves behind can be used again: a
    call given the object that an earlier call has written to runs as a
    call given the original object, and leaves the object as it found it. *)
Theorem options_reusable (method url method' url' : string) (data data' : option R)
  (options : IHttpOptions.t P) :
  let used := fst (httpBase method' url' data' options) in
  httpBase method url data used = (used, snd (httpBase method url data options)).
Proof.
  simpl. unfold httpBase. rewrite normalize_skip_idempotent. reflexivity.
Qed.

Lemma showError_at_most_one (msg : string) (se : slot callback) :
  List.length (trace (showError msg se)) <= 1.
Proof.
  unfold showError. destruct se; simpl; try lia.
  destruct (IHttpGlobalConfig.showError config); simpl; lia.
Qed.

Lemma handleError_counts (err : thrown T) (se : slot callback) (skip : option bool) :
  count is_display (trace (handleError err se skip)) <= 1
  /\ count is_handler (trace (handleError err se skip)) <= 1.
Proof.
  destruct err as [ex | x |].
  - rewrite handleError_server. simpl. rewrite !count_app.
    pose proof (showError_at_most_one (ZyWebRes.msg (ServerException.payload ex)) se).
    pose proof (count_le_length is_display
                  (trace (showError (ZyWebRes.msg (ServerException.payload ex)) se))).
    rewrite showError_no_handler, handler_calls_count.
    assert (Hd : count is_display (handler_calls skip ex) = 0).
    { apply count_none. intros e H'. apply handler_calls_events in H'.
      destruct H' as (_ & h & _ & ->). reflexivity. }
    rewrite Hd. split; [lia|].
    destruct (truthy_flag skip); [lia|].
    destruct (IHttpGlobalConfig.handleServerError config); lia.
  - rewrite handleError_error. simpl.
    pose proof (showError_at_most_one (snd (classify x)) se).
    pose proof (count_le_length is_display (trace (showError (snd (classify x)) se))).
    rewrite showError_no_handler. lia.
  - simpl. unfold count. simpl. lia.
Qed.

(** A call that dispatches the request [c] is the write to the options
    object followed by the [try] statement on [c]. *)
Lemma httpBase_dispatched (method url : string) (data : option R)
  (options : IHttpOptions.t P) (c : AxiosRequestConfig.t R P) :
  In (Request c) (trace (snd (httpBase method url data options))) ->
  snd (httpBase method url data options) =
  (AssignSkip (truthy_flag (IHttpOptions.skipServerErrorHandler options))
     :: trace (dispatch c (normalize_skip options)),
   result (dispatch c (normalize_skip options))).
Proof.
  intros Hin. pose proof (httpBase_request _ _ _ _ _ Hin) as Hc.
  revert Hin. rewrite httpBase_eq.
  set (options' := normalize_skip options) in *.
  set (c0 := httpOptions method url data options') in *.
  pose proof (header_phase_returned method options' (AxiosRequestConfig.headers c0))
    as Hq.
  pose proof (header_phase_written method options' (AxiosRequestConfig.headers c0))
    as Hw.
  assert (Hhdr : ~ In (Request c)
                   (trace (header_phase method options'
                             (AxiosRequestConfig.headers c0)))).
  { intros H. apply header_phase_events in H.
    destruct H as (token & x & _ & _ & H). apply handleError_no_loading in H.
    discriminate. }
  destruct (header_phase method options' (AxiosRequestConfig.headers c0))
    as [tr [headers | x]]; simpl in Hhdr |- *.
  - intros _. specialize (Hq headers eq_refl). simpl in Hq. subst tr.
    specialize (Hw headers eq_refl).
    assert (Hc' : c = with_headers c0 headers) by (rewrite Hw; exact Hc).
    rewrite <- Hc'. reflexivity.
  - intros [H | H]; [discriminate | tauto].
Qed.

(** X17. In a call that dispatches a request nothing but the write to the
    options object and the indicator's [show] comes before the request; what
    follows it is the handling of at most one failure and then the
    indicator's [hide], which comes last. *)
Theorem request_is_bracketed (method url : string) (data : option R)
  (options : IHttpOptions.t P) (c : AxiosRequestConfig.t R P) :
  In (Request c) (trace (snd (httpBase method url data options))) ->
  exists handling,
    trace (snd (httpBase method url data options)) =
    AssignSkip (truthy_flag (IHttpOptions.skipServerErrorHandler options))
      :: trace (showLoading (IHttpOptions.loading options))
      ++ Request c :: handling
      ++ trace (hideLoading (IHttpOptions.loading options))
    /\ (handling = []
        \/ exists err,
             handling =
             trace (handleError err (IHttpOptions.showError options)
                      (IHttpOptions.skipServerErrorHandler (normalize_skip options)))).
Proof.
  intros Hin. rewrite (httpBase_dispatched _ _ _ _ _ Hin), dispatch_eq.
  destruct (result (unwrap (Axios_request c))) as [d | err]; simpl.
  - exists []. split; [reflexivity | auto].
  - eexists. split; [reflexivity|]. right. eauto.
Qed.

(** X18. A call that dispatches a request displays at most one error and
    invokes the global server-error handler at most once. *)
Theorem one_failure_per_request (method url : string) (data : option R)
  (options : IHttpOptions.t P) (c : AxiosRequestConfig.t R P) :
  In (Request c) (trace (snd (httpBase method url data options))) ->
  count is_display (trace (snd (httpBase method url data options))) <= 1
  /\ count is_handler (trace (snd (httpBase method url data options))) <= 1.
Proof.
  intros Hin. rewrite (httpBase_dispatched _ _ _ _ _ Hin), dispatch_eq.
  assert (Hshow : forall p, (forall o f, p (@LoadingShow T R P o f) = false) ->
                            count p (trace (showLoading (IHttpOptions.loading options)))
                            = 0).
  { intros p Hp. apply count_none. intros e H. apply showLoading_events in H.
    destruct H as [(f & _ & ->) | (g & _ & _ & ->)]; apply Hp. }
  assert (Hhide : forall p, (forall o f, p (@LoadingHide T R P o f) = false) ->
                            count p (trace (hideLoading (IHttpOptions.loading options)))
                            = 0).
  { intros p Hp. apply count_none. intros e H. apply hideLoading_events in H.
    destruct H as (o & f & ->). apply Hp. }
  destruct (result (unwrap (Axios_request c))) as [d | err]; simpl trace.
  - change (AssignSkip ?b :: ?x ++ ?y) with ([@AssignSkip T R P b] ++ x ++ y).
    change (Request c :: ?x) with ([@Request T R P c] ++ x).
    simpl IHttpOptions.loading.
    rewrite !count_app, !Hshow, !Hhide by reflexivity.
    unfold count. simpl. lia.
  - change (AssignSkip ?b :: ?x ++ ?y) with ([@AssignSkip T R P b] ++ x ++ y).
    change (Request c :: ?x) with ([@Request T R P c] ++ x).
    simpl IHttpOptions.loading.
    rewrite !count_app, !Hshow, !Hhide by reflexivity.
    match goal with
    | |- context [handleError err ?se ?sk] =>
        pose proof (handleError_counts err se sk) as [Hd Hhd]
    end.
    change (count is_display [AssignSkip ?b]) with 0.
    change (count is_handler [AssignSkip ?b]) with 0.
    change (count is_display [Request c]) with 0.
    change (count is_handler [Request c]) with 0.
    lia.
Qed.

End HttpBase.

Arguments serverFullPath {T} config.
Arguments request_url {T} config url.
Arguments well_assembled {T} config url.
Arguments showError {T R P} config msg showError.
Arguments showLoading {T R P} config loading.
Arguments hideLoading {T R P} config loading.
Arguments handleError {T R P} config err showErr skipServerErrorHandler.
Arguments dispatch {T R P} config Axios_request c options.
Arguments httpBase {T R P} config Axios_request method url data options.
Arguments get {T R P} config Axios_request url options.
Arguments post {T R P} config Axios_request url data options.
Arguments rejected_as {T R P} config Axios_request err code msg.
Arguments trace {T R P A} m.
Arguments result {T R P A} m.
Arguments count {T R P} p tr.
Arguments is_show {T R P} e.
Arguments is_hide {T R P} e.
Arguments is_handler {T R P} e.
Arguments is_display {T R P} e.
Arguments is_request {T R P} e.
Arguments httpOptions {T R P} config method url data options.

(** * The properties at sample inputs *)

(** C1. A header provider whose promise is rejected without a reason makes
    [handleError] read [response] of [undefined]: the call
    [get('/users')] rejects with a [TypeError], which is not a
    [ServerException]. *)
Theorem rejected_token_leaks_type_error :
  result (snd (get Sample.config_token_rejects (Sample.answers Sample.envelope_ok)
                 "/users" None)) =
  Threw (ExnError
           (TypeError "Cannot read properties of undefined (reading 'response')")).
Proof. reflexivity. Qed.

(** C5. With a per-call indicator that supplies [show] but no [hide], and a
    global indicator that supplies both, [hideLoading] invokes nothing: the
    global [hide] is not used although the per-call indicator lacks [hide].
    [showLoading] does fall back to the global [show] when the per-call
    indicator lacks [show]. *)
Theorem hideLoading_tests_show :
  hideLoading (R := string) (P := string) Sample.config
    (IHttpOptions.loading Sample.options_show_only) = ([], Returned tt)
  /\ showLoading (R := string) (P := string) Sample.config
       (IHttpOptions.loading Sample.options_hide_only) =
     ([LoadingShow Global (Fn "spinner.show")], Returned tt).
Proof. split; reflexivity. Qed.

(** C3 fails as stated: without a port the path ['users'] follows the base
    with no ['/'] between them, and with a port the path ['/users'] follows
    the ['/'] that the constructor has already put after the port. *)
Lemma url_not_well_assembled :
  request_url Sample.config "users" = "http://api.testusers/"
  /\ well_assembled Sample.config (request_url Sample.config "users") = false
  /\ request_url Sample.config_port "/users" = "http://api.test:8080//users/"
  /\ well_assembled Sample.config_port (request_url Sample.config_port "/users") = false.
Proof. repeat split; reflexivity. Qed.

(** C4 fails as stated: with a per-call indicator that supplies [show] only
    and no global indicator, a call that resolves invokes [show] once and no
    [hide], and so does a call that rejects. *)
Lemma show_without_hide :
  count is_show
    (trace (snd (get Sample.config_bare (Sample.answers Sample.envelope_ok)
                   "/users" (Some Sample.options_show_only)))) = 1
  /\ count is_hide
       (trace (snd (get Sample.config_bare (Sample.answers Sample.envelope_ok)
                      "/users" (Some Sample.options_show_only)))) = 0
  /\ count is_show
       (trace (snd (get Sample.config_bare (Sample.fails Sample.error_503)
                      "/users" (Some Sample.options_show_only)))) = 1
  /\ count is_hide
       (trace (snd (get Sample.config_bare (Sample.fails Sample.error_503)
                      "/users" (Some Sample.options_show_only)))) = 0.
Proof. repeat split; reflexivity. Qed.

(** C2 fails as stated: with a per-call [showError] that is supplied but
    falsy, a response whose code is not ["OK"] is rejected and handled, but
    its message goes to no display callback, although a global one is
    configured. *)
Lemma logical_failure_not_displayed :
  IHttpGlobalConfig.showError Sample.config = Some Sample.toast
  /\ result (snd (get Sample.config (Sample.answers Sample.envelope_denied)
                    "/users" (Some Sample.options_silent)))
     = Threw (ExnServer (ServerException.mk Sample.envelope_denied))
  /\ filter is_display
       (trace (snd (get Sample.config (Sample.answers Sample.envelope_denied)
                      "/users" (Some Sample.options_silent)))) = [].
Proof. repeat split; reflexivity. Qed.

(** C8 fails as stated: with a per-call [showError] that is supplied but
    falsy, a request that fails with status 503 is rejected, but no display
    callback is invoked, although a global one is configured. *)
Lemma transport_failure_not_displayed :
  IHttpGlobalConfig.showError Sample.config = Some Sample.toast
  /\ result (snd (get Sample.config (Sample.fails Sample.error_503)
                    "/users" (Some Sample.options_silent)))
     = Threw (ExnServer
                (ServerException.mk
                   (ZyWebRes.mk "SERVER_INTERNAL_ERROR" "服务器内部错误" None)))
  /\ filter is_display
       (trace (snd (get Sample.config (Sample.fails Sample.error_503)
                      "/users" (Some Sample.options_silent)))) = [].
Proof. repeat split; reflexivity. Qed.

Lemma url_assembly_witness :
  request_url Sample.config "/users" = "http://api.test/users/"
  /\ request_url Sample.config_port "users/" = "http://api.test:8080/users/".
Proof.
  split.
  - exact (proj2 (proj2 (proj2 (url_assembly _ Sample.config))) eq_refl eq_refl).
  - refine (proj1 (proj2 (url_assembly _ Sample.config_port)) "8080" "users/"
              eq_refl _).
    discriminate.
Defined.

Lemma loading_pairing_witness :
  count is_hide
    (trace (snd (get Sample.config (Sample.fails Sample.error_503) "/users" None))) = 1.
Proof.
  apply (proj2 (proj2 (proj2
           (loading_pairing _ _ _ Sample.config (Sample.fails Sample.error_503)
              "get" "/users" None IHttpOptions.empty)))
         Global (Fn "spinner.show")).
  - simpl. tauto.
  - right. repeat split; reflexivity.
Defined.

Lemma http_status_rejection_witness :
  result (dispatch Sample.config (Sample.fails Sample.error_503)
            (httpOptions Sample.config "get" "/users" None IHttpOptions.empty)
            IHttpOptions.empty)
  = Threw (ExnServer
             (ServerException.mk
                (ZyWebRes.mk "SERVER_INTERNAL_ERROR" "服务器内部错误" None)))
  /\ result (dispatch Sample.config (Sample.fails Sample.error_404)
               (httpOptions Sample.config "get" "/users" None IHttpOptions.empty)
               IHttpOptions.empty)
     = Threw (ExnServer
                (ServerException.mk (ZyWebRes.mk "URL_NOT_FOUND" "URL找不到" None))).
Proof.
  split.
  - refine (proj2 (proj1 (http_status_rejection _ _ _ Sample.config
                            (Sample.fails Sample.error_503) Sample.error_503
                            (AxiosResponse.mk (Some 503%Z) eq_refl) 503%Z
                            eq_refl eq_refl) _) _ _ eq_refl).
    lia.
  - refine (proj2 (proj2 (http_status_rejection _ _ _ Sample.config
                            (Sample.fails Sample.error_404) Sample.error_404
                            (AxiosResponse.mk (Some 404%Z) eq_refl) 404%Z
                            eq_refl eq_refl) _) _ _ eq_refl).
    lia.
Defined.

Lemma transport_failure_rejection_witness :
  rejected_as Sample.config (Sample.fails Sample.error_timeout) Sample.error_timeout
    "ECONNABORTED" "网络超时"
  /\ rejected_as Sample.config (Sample.fails Sample.error_network) Sample.error_network
       "NETWORK_ERROR" "无网络, 请检查您的网络连接"
  /\ rejected_as Sample.config (Sample.fails Sample.error_other) Sample.error_other
       "UNKNOWN_ERROR" "未知错误".
Proof.
  split; [|split].
  - apply (proj1 (transport_failure_rejection _ _ _ Sample.config
                    (Sample.fails Sample.error_timeout) Sample.error_timeout eq_refl)).
    reflexivity.
  - apply (proj1 (proj2 (transport_failure_rejection _ _ _ Sample.config
                           (Sample.fails Sample.error_network) Sample.error_network
                           eq_refl))).
    + discriminate.
    + reflexivity.
  - apply (proj2 (proj2 (transport_failure_rejection _ _ _ Sample.config
                           (Sample.fails Sample.error_other) Sample.error_other
                           eq_refl))); discriminate.
Defined.

Lemma logical_failure_rejection_witness :
  result (snd (get Sample.config (Sample.answers Sample.envelope_denied) "/users" None))
  = Threw (ExnServer (ServerException.mk Sample.envelope_denied))
  /\ count is_handler
       (trace (snd (get Sample.config (Sample.answers Sample.envelope_denied)
                      "/users" None))) = 1
  /\ count is_display
       (trace (snd (get Sample.config (Sample.answers Sample.envelope_denied)
                      "/users" None))) = 1.
Proof.
  assert (Hcode : ZyWebRes.code Sample.envelope_denied <> "OK") by discriminate.
  pose proof (logical_failure_rejection _ _ _ Sample.config
                (Sample.answers Sample.envelope_denied) "get" "/users" None
                IHttpOptions.empty [("Content-Type", "application/json")]
                Sample.envelope_denied eq_refl eq_refl Hcode)
    as (Hrun & Hcount & Hdisplay).
  split; [|split].
  - unfold get. rewrite Hrun. reflexivity.
  - exact Hcount.
  - exact Hdisplay.
Defined.

Lemma showError_three_way_witness :
  showError (R := string) (P := string) Sample.config "not allowed" NotSupplied
  = ([ShowError Global Sample.toast "not allowed"], Returned tt)
  /\ showError (R := string) (P := string) Sample.config_bare "not allowed" NotSupplied
     = ([], Returned tt).
Proof.
  split.
  - exact (proj1 (proj2 (showError_three_way string string string Sample.config
                           "not allowed")) Sample.toast eq_refl).
  - exact (proj1 (proj2 (proj2 (showError_three_way string string string
                                  Sample.config_bare "not allowed"))) eq_refl).
Defined.

Lemma handler_only_for_server_exceptions_witness :
  exists code msg,
    result (dispatch Sample.config (Sample.fails Sample.error_timeout)
              (httpOptions Sample.config "get" "/users" None IHttpOptions.empty)
              IHttpOptions.empty)
    = Threw (ExnServer (ServerException.mk (ZyWebRes.mk code msg None)))
    /\ filter (fun ev => is_display ev || is_handler ev)
         (trace (dispatch Sample.config (Sample.fails Sample.error_timeout)
                   (httpOptions Sample.config "get" "/users" None IHttpOptions.empty)
                   IHttpOptions.empty))
       = [ShowError Global Sample.toast msg].
Proof.
  exact (proj1 (proj2 (handler_only_for_server_exceptions _ _ _ Sample.config
                         (Sample.fails Sample.error_timeout)))
           (httpOptions Sample.config "get" "/users" None IHttpOptions.empty)
           IHttpOptions.empty Sample.error_timeout eq_refl).
Defined.

Lemma httpBase_normalizes_skip_witness :
  IHttpOptions.skipServerErrorHandler
    (fst (httpBase Sample.config (Sample.answers Sample.envelope_ok) "get" "/users" None
            Sample.options_show_only)) = Some false.
Proof.
  exact (proj1 (httpBase_normalizes_skip _ _ _ Sample.config
                  (Sample.answers Sample.envelope_ok) "get" "/users" None
                  Sample.options_show_only) eq_refl).
Defined.


(** * The further properties at sample inputs *)

Lemma timeout_resolution_witness :
  AxiosRequestConfig.timeout
    (httpOptions (R := string) Sample.config_tokens "get" "/users" None
       Sample.options_show_only) = 3000%Z.
Proof.
  apply (proj1 (proj2 (proj2 (timeout_resolution string string string
                                Sample.config_tokens "get" "/users" None
                                Sample.options_show_only))
                  (or_introl eq_refl)) 3000%Z eq_refl).
  discriminate.
Defined.

Lemma request_configuration_witness :
  AxiosRequestConfig.data
    (AxiosRequestConfig.mk (R := string) (P := string) "get" "http://api.test/users/"
       5000%Z true [("Content-Type", "application/json")] None None) = None.
Proof.
  refine (proj2 (proj2 (proj2 (proj2 (proj2
            (proj2 (request_configuration string string string Sample.config
                      (Sample.answers Sample.envelope_ok) "get" "/users" (Some "{}")
                      IHttpOptions.empty) _ _))))) _).
  - simpl. auto 10.
  - discriminate.
Defined.

Lemma provider_failure_aborts_witness :
  count is_request
    (trace (snd (get Sample.config_token_rejects (Sample.answers Sample.envelope_ok)
                   "/users" None))) = 0.
Proof.
  refine (proj1 (proj2 (provider_failure_aborts string string string
                          Sample.config_token_rejects
                          (Sample.answers Sample.envelope_ok) "get" "/users" None
                          IHttpOptions.empty
                          (HeaderType.mk "Authorization"
                             (Function (PromiseRejects ExnNullish)) false)
                          ExnNullish _ eq_refl eq_refl))).
  simpl. auto.
Defined.

Lemma header_left_alone_witness :
  header_lookup "X-CSRF"
    [("Content-Type", "application/json"); ("Authorization", "Bearer abc")] = None.
Proof.
  refine (header_left_alone string string string Sample.config_tokens
            (Sample.answers Sample.envelope_ok) "get" "/users" None
            IHttpOptions.empty "X-CSRF"
            (AxiosRequestConfig.mk "get" "http://api.test/users/" 3000%Z true
               [("Content-Type", "application/json"); ("Authorization", "Bearer abc")]
               None None) _ _).
  - intros token [<- | [<- | []]]; simpl; intros H; discriminate.
  - simpl. auto 10.
Defined.

Lemma header_provided_witness :
  header_lookup "X-CSRF"
    [("Content-Type", "application/json"); ("X-CSRF", "s3cr3t");
     ("Authorization", "Bearer abc")] = Some "s3cr3t".
Proof.
  refine (header_provided string string string Sample.config_tokens
            (Sample.answers Sample.envelope_ok) "post" "/users" (Some "{}")
            IHttpOptions.empty (HeaderType.mk "X-CSRF" (Literal "s3cr3t") true)
            "s3cr3t"
            (AxiosRequestConfig.mk "post" "http://api.test/users/" 3000%Z true
               [("Content-Type", "application/json"); ("X-CSRF", "s3cr3t");
                ("Authorization", "Bearer abc")]
               None (Some "{}")) _ eq_refl eq_refl _ _).
  - simpl. auto.
  - intros t [<- | [<- | []]]; simpl; intros _ H; (discriminate || reflexivity).
  - simpl. auto 10.
Defined.

Lemma resolved_call_is_quiet_witness :
  count is_display
    (trace (snd (get Sample.config (Sample.answers Sample.envelope_ok) "/users" None)))
  = 0.
Proof.
  exact (proj1 (proj2 (resolved_call_is_quiet string string string Sample.config
                         (Sample.answers Sample.envelope_ok) "get" "/users" None
                         IHttpOptions.empty (Some "[]") eq_refl))).
Defined.

Lemma handler_respects_skip_witness :
  IHttpOptions.skipServerErrorHandler (IHttpOptions.empty (P := string)) <> Some true.
Proof.
  refine (proj1 (handler_respects_skip string string string Sample.config
                   (Sample.answers Sample.envelope_denied) "get" "/users" None
                   IHttpOptions.empty Sample.onServerError
                   (ServerException.mk Sample.envelope_denied) _)).
  simpl. auto 10.
Defined.

Lemma display_selection_witness :
  (IHttpOptions.showError (IHttpOptions.empty (P := string)) = Provided Sample.toast
   /\ Global = PerCall)
  \/ (IHttpOptions.showError (IHttpOptions.empty (P := string)) = NotSupplied
      /\ Global = Global
      /\ IHttpGlobalConfig.showError Sample.config = Some Sample.toast).
Proof.
  refine (display_selection string string string Sample.config
            (Sample.answers Sample.envelope_denied) "get" "/users" None
            IHttpOptions.empty Global Sample.toast "not allowed" _).
  simpl. auto 10.
Defined.

Lemma empty_loading_turns_indicator_off_witness :
  count is_show
    (trace (snd (get Sample.config (Sample.answers Sample.envelope_ok) "/users"
                   (Some Sample.options_no_indicator)))) = 0.
Proof.
  exact (proj1 (empty_loading_turns_indicator_off string string string Sample.config
                  (Sample.answers Sample.envelope_ok) "get" "/users" None
                  Sample.options_no_indicator eq_refl)).
Defined.

Lemma empty_body_rejection_witness :
  result (dispatch Sample.config Sample.answers_nothing
            (httpOptions Sample.config "get" "/users" None IHttpOptions.empty)
            IHttpOptions.empty)
  = Threw (ExnServer
             (ServerException.mk (ZyWebRes.mk "UNKNOWN_ERROR" "未知错误" None))).
Proof.
  exact (proj1 (empty_body_rejection string string string Sample.config
                  Sample.answers_nothing
                  (httpOptions Sample.config "get" "/users" None IHttpOptions.empty)
                  IHttpOptions.empty eq_refl)).
Defined.

Lemma other_status_rejection_witness :
  result (dispatch Sample.config (Sample.fails Sample.error_302)
            (httpOptions Sample.config "get" "/users" None IHttpOptions.empty)
            IHttpOptions.empty)
  = Threw (ExnServer
             (ServerException.mk (ZyWebRes.mk "UNKNOWN_ERROR" "未知错误" None))).
Proof.
  refine (proj2 (other_status_rejection string string string Sample.config
                   (Sample.fails Sample.error_302) Sample.error_302
                   (AxiosResponse.mk (Some 302%Z) eq_refl) 302%Z eq_refl eq_refl _)
            _ _ eq_refl).
  lia.
Defined.

Lemma trailing_slash_immaterial_witness :
  request_url Sample.config "/users/" = request_url Sample.config "/users".
Proof.
  exact (trailing_slash_immaterial string Sample.config "/users" eq_refl).
Defined.

Lemma provider_server_exception_handled_witness :
  In (HandleServerError Sample.onServerError (ServerException.mk Sample.envelope_denied))
    (trace (snd (get Sample.config_token_denied (Sample.answers Sample.envelope_ok)
                   "/users" None))).
Proof.
  refine (proj1 (provider_server_exception_handled string string string
                   Sample.config_token_denied (Sample.answers Sample.envelope_ok)
                   "get" "/users" None IHttpOptions.empty
                   (HeaderType.mk "Authorization"
                      (Function (PromiseRejects
                                   (ExnServer (ServerException.mk Sample.envelope_denied))))
                      false)
                   (ServerException.mk Sample.envelope_denied) Sample.onServerError
                   _ eq_refl eq_refl eq_refl _)).
  - simpl. auto.
  - discriminate.
Defined.

Lemma request_is_bracketed_witness :
  exists handling,
    trace (snd (get Sample.config_bare (Sample.fails Sample.error_503) "/users" None))
    = AssignSkip false
        :: Request (AxiosRequestConfig.mk "get" "http://api.test/users/" 5000%Z true
                      [("Content-Type", "application/json")] None None)
        :: handling.
Proof.
  destruct (request_is_bracketed string string string Sample.config_bare
              (Sample.fails Sample.error_503) "get" "/users" None IHttpOptions.empty
              (AxiosRequestConfig.mk "get" "http://api.test/users/" 5000%Z true
                 [("Content-Type", "application/json")] None None))
    as (handling & H & _).
  - simpl. auto 10.
  - exists handling. rewrite app_nil_r in H. exact H.
Defined.

Lemma one_failure_per_request_witness :
  count is_display
    (trace (snd (get Sample.config (Sample.fails Sample.error_503) "/users" None))) <= 1.
Proof.
  refine (proj1 (one_failure_per_request string string string Sample.config
                   (Sample.fails Sample.error_503) "get" "/users" None
                   IHttpOptions.empty
                   (AxiosRequestConfig.mk "get" "http://api.test/users/" 5000%Z true
                      [("Content-Type", "application/json")] None None) _)).
  simpl. auto 10.
Defined.

